(** * grunt-haproxy: the [haproxy] multi-task of tasks/haproxy.js

    A shallow embedding of the task body (the [this.files.forEach] loop, the
    [f.src.filter] callback and the ['close'] listener) over an explicit model
    of what the task touches: the file system, the table of processes that
    [process.kill] can address, the [_restart] closure variables, the spawned
    children and the trace of effects. *)

From Stdlib Require Import ZArith NArith Bool Ascii String List Lia.
From Stdlib Require Import DecimalString DecimalPos DecimalZ.
From stdpp Require Import base option gmap strings list.

Local Open Scope Z_scope.
Local Open Scope string_scope.
Local Open Scope list_scope.

(** ** Values read from the PID file, as [process.kill] receives them *)

Module Js.

(** The white space that ToNumber strips on both sides of a string
    (StrWhiteSpaceChar: WhiteSpace and LineTerminator), by the UTF-8 bytes
    of the file: the code points of one byte, of two and of three. *)
Definition ws1 (a : N) : bool :=
  match a with
  | 9 | 10 | 11 | 12 | 13 | 32 => true
  | _ => false
  end%N.

Definition ws2 (a b : N) : bool := ((a =? 194) && (b =? 160))%N.

Definition ws3 (a b c : N) : bool :=
  (((a =? 225) && (b =? 154) && (c =? 128)) ||
   ((a =? 226) && (b =? 128) &&
      (((128 <=? c) && (c <=? 138)) || (c =? 168) || (c =? 169) || (c =? 175))) ||
   ((a =? 226) && (b =? 129) && (c =? 159)) ||
   ((a =? 227) && (b =? 128) && (c =? 128)) ||
   ((a =? 239) && (b =? 187) && (c =? 191)))%N.

Definition is_space (c : ascii) : bool := ws1 (N_of_ascii c).

(** One white-space code point at the head of the bytes: what follows it. *)
Definition strip_head (l : list ascii) : option (list ascii) :=
  match l with
  | a :: r =>
      if ws1 (N_of_ascii a) then Some r else
      match r with
      | b :: r' =>
          if ws2 (N_of_ascii a) (N_of_ascii b) then Some r' else
          match r' with
          | c :: r'' =>
              if ws3 (N_of_ascii a) (N_of_ascii b) (N_of_ascii c) then Some r'' else None
          | [] => None
          end
      | [] => None
      end
  | [] => None
  end.

(** The same at the end, on the bytes in reverse order. *)
Definition strip_last (l : list ascii) : option (list ascii) :=
  match l with
  | c :: r =>
      if ws1 (N_of_ascii c) then Some r else
      match r with
      | b :: r' =>
          if ws2 (N_of_ascii b) (N_of_ascii c) then Some r' else
          match r' with
          | a :: r'' =>
              if ws3 (N_of_ascii a) (N_of_ascii b) (N_of_ascii c) then Some r'' else None
          | [] => None
          end
      | [] => None
      end
  | [] => None
  end.

Fixpoint strip_all (strip : list ascii -> option (list ascii)) (fuel : nat)
    (l : list ascii) : list ascii :=
  match fuel with
  | O => l
  | S n => match strip l with
           | Some r => strip_all strip n r
           | None => l
           end
  end.

Definition trim (s : string) : string :=
  let l := list_ascii_of_string s in
  let l1 := strip_all strip_head (length l) l in
  string_of_list_ascii (rev (strip_all strip_last (length l1) (rev l1))).

Definition is_digit (c : ascii) : bool :=
  match c with
  | "0" | "1" | "2" | "3" | "4" | "5" | "6" | "7" | "8" | "9" => true
  | _ => false
  end%char.

(** The longest run of decimal digits at the head, and the rest. *)
Fixpoint span_digits (s : string) : string * string :=
  match s with
  | EmptyString => (EmptyString, EmptyString)
  | String c r =>
      if is_digit c
      then let (d, rest) := span_digits r in (String c d, rest)
      else (EmptyString, s)
  end.

(** The value of a run of decimal digits. *)
Definition digits_value (d : string) : N :=
  match NilEmpty.uint_of_string d with
  | Some u => N.of_uint u
  | None => 0%N
  end.

(** The value of a digit in the bases up to 16. *)
Definition digit_of (c : ascii) : option N :=
  let b := N_of_ascii c in
  (if (48 <=? b) && (b <=? 57) then Some (b - 48)
   else if (97 <=? b) && (b <=? 102) then Some (b - 87)
   else if (65 <=? b) && (b <=? 70) then Some (b - 55)
   else None)%N.

Fixpoint radix_go (base : N) (s : string) (acc : N) : option N :=
  match s with
  | EmptyString => Some acc
  | String c r =>
      match digit_of c with
      | Some d => if (d <? base)%N then radix_go base r (acc * base + d)%N else None
      | None => None
      end
  end.

(** The digits of a literal after its prefix [0x], [0o] or [0b]. *)
Definition radix_literal (base : N) (s : string) : option N :=
  match s with
  | EmptyString => None
  | _ => radix_go base s 0%N
  end.

(** A Number value as far as [process.kill] looks at it: not a number,
    infinite, or the decimal [mantissa * 10 ^ exponent] with its sign. *)
Inductive Number :=
| NaN
| Infinite
| Finite (negative : bool) (mantissa : N) (exponent : Z).

(** ExponentPart after its [e]: an optional sign and digits to the end. *)
Definition exponent_part (s : string) : option Z :=
  let negative := match s with String "-"%char _ => true | _ => false end in
  let body := match s with
              | String "-"%char r => r
              | String "+"%char r => r
              | _ => s
              end in
  match span_digits body with
  | (String c d, EmptyString) =>
      let v := Z.of_N (digits_value (String c d)) in
      Some (if negative then - v else v)
  | _ => None
  end.

(** StrUnsignedDecimalLiteral without [Infinity]: digits, a fraction and an
    exponent, with a digit before or after the point. *)
Definition decimal_literal (s : string) : option (N * Z) :=
  let (int_part, r1) := span_digits s in
  let (frac, r2) := match r1 with
                    | String "."%char r => span_digits r
                    | _ => (EmptyString, r1)
                    end in
  match int_part +:+ frac with
  | EmptyString => None
  | ds =>
      let m := digits_value ds in
      let e0 := - Z.of_nat (String.length frac) in
      match r2 with
      | EmptyString => Some (m, e0)
      | String c r3 =>
          if Ascii.eqb c "e" || Ascii.eqb c "E"
          then (fun e => (m, e + e0)) <$> exponent_part r3
          else None
      end
  end.

Definition str_decimal (negative : bool) (s : string) : Number :=
  if String.eqb s "Infinity" then Infinite
  else match decimal_literal s with
       | Some (m, e) => Finite negative m e
       | None => NaN
       end.

(** NonDecimalIntegerLiteral: hexadecimal, octal and binary, unsigned. *)
Definition non_decimal (s : string) : Number :=
  match s with
  | String "0"%char (String x r) =>
      let base := if Ascii.eqb x "x" || Ascii.eqb x "X" then Some 16%N
                  else if Ascii.eqb x "o" || Ascii.eqb x "O" then Some 8%N
                  else if Ascii.eqb x "b" || Ascii.eqb x "B" then Some 2%N
                  else None in
      match base with
      | Some b => match radix_literal b r with
                  | Some v => Finite false v 0
                  | None => NaN
                  end
      | None => NaN
      end
  | _ => NaN
  end.

(** StrNumericLiteral. *)
Definition numeric_literal (s : string) : Number :=
  match s with
  | String "-"%char r => str_decimal true r
  | String "+"%char r => str_decimal false r
  | _ => match str_decimal false s with
         | NaN => non_decimal s
         | n => n
         end
  end.

(** ToNumber on a string: white space is stripped on both sides, the empty
    rest is 0, any other rest is read as a numeric literal. *)
Definition ToNumber (s : string) : Number :=
  match trim s with
  | EmptyString => Finite false 0 0
  | t => numeric_literal t
  end.

(** The integer [n <= 2^31] that the double nearest to [m * 10 ^ e] is, when
    that double is such an integer.  A literal is rounded to the nearest
    double, ties to the even significand.  The doubles next to an integer
    [n] with [2^k <= n < 2^(k+1)] are [2^(k-52)] away, the one below a power
    of two half as far, and the significand of [n] is even; so the literals
    that round to [n] are those from [n - 2^(k-53)] (from [n - 2^(k-54)] for
    [n = 2^k]) to [n + 2^(k-53)].  The literals that round to 0 are those
    up to [2^(-1075)]. *)
Definition nearest_integer (m : N) (e : Z) : option N :=
  if (m =? 0)%N then Some 0%N
  else if (10 <? e)%Z then None
  else if (0 <=? e)%Z then Some (m * 10 ^ Z.to_N e)%N
  else if (Z.of_N (N.log2 m) / 3 + 1 + e <=? -330)%Z then Some 0%N
  else
    let D := (10 ^ Z.to_N (- e))%N in
    let n := ((2 * m + D) / (2 * D))%N in
    if (n =? 0)%N then (if (m * 2 ^ 1075 <=? D)%N then Some 0%N else None)
    else if (2 ^ 31 <? n)%N then None
    else
      let k := N.log2 n in
      let up := (2 ^ (53 - k))%N in
      let dn := if (n =? 2 ^ k)%N then (2 ^ (54 - k))%N else up in
      if ((m * up <=? (n * up + 1) * D) && ((n * dn - 1) * D <=? m * dn))%N
      then Some n else None.

(** [x | 0]: ToInt32, the value wrapped into [-2^31, 2^31). *)
Definition ToInt32 (n : Z) : Z := (n + 2 ^ 31) mod 2 ^ 32 - 2 ^ 31.

(** The guard of [process.kill]: [if (pid != (pid | 0)) throw new
    TypeError('invalid pid')].  The string is compared as a Number: NaN and
    the infinities differ from their [| 0], which is 0, and a finite value
    is accepted when it is an integer that the wrap leaves unchanged.
    [Some n] is the accepted id. *)
Definition valid_pid (pid : string) : option Z :=
  match ToNumber pid with
  | Finite negative m e =>
      match nearest_integer m e with
      | Some n =>
          let z := if negative then - Z.of_N n else Z.of_N n in
          if Z.eqb z (ToInt32 z) then Some z else None
      | None => None
      end
  | _ => None
  end.

(** The decimal text of a process id, as a daemon writes it into its PID
    file: the digits and a newline. *)
Definition pid_text (p : positive) : string :=
  NilEmpty.string_of_uint (Pos.to_uint p) +:+ String (ascii_of_nat 10) EmptyString.

(** Strings of decimal digits: what the digits of [pid_text] are. *)
Fixpoint all_digits (s : string) : bool :=
  match s with
  | EmptyString => true
  | String c r => is_digit c && all_digits r
  end.

End Js.

(** ** The world the task runs in *)

(** A file as [fs.readFileSync] finds it. *)
Inductive File :=
| Readable (content : string)
| Unreadable.

(** What [spawn] returns: the ChildProcess object with what its listeners
    close over. *)
Record Instance := {
  inst_pid  : positive;      (* _instance.pid *)
  inst_args : list string;   (* the argument vector given to haproxy *)
  inst_dest : string;        (* f.dest[0] of the file group *)
  inst_cell : nat            (* which _restart variable the listener sees *)
}.

Inductive KillError := TypeError_invalid_pid | ESRCH | EPERM.

Inductive Exn :=
| KillFailed (e : KillError)
| ReadFailed (path : string)
| UnlinkFailed (path : string).

(** The effects, in the order they happen. *)
Inductive Event :=
| EvExists (path : string) (found : bool)
| EvRead (path : string)
| EvKill (pid : string) (outcome : option KillError)
| EvUnlink (path : string) (removed : bool)
| EvSpawn (cmd : string) (args : list string) (pid : positive)
| EvConsoleStarted (pid : positive) (dest : string) (code : option Z)
| EvConsoleExited (code : option Z)
| EvTaskRun (task : string)
| EvDone.

Record State := {
  files     : gmap string File;   (* the file system: path to file *)
  pinned    : gset string;        (* paths that unlinkSync cannot remove *)
  procs     : gmap Z bool;        (* ids kill(2) finds: a positive id is a
                                     process, an id <= 0 a process group;
                                     the flag says whether we may signal it *)
  next_pid  : positive;           (* the id the next created process gets *)
  cells     : list bool;          (* the _restart variables, one per run of
                                     the forEach body; false is undefined *)
  children  : list Instance;      (* the spawned children, oldest first *)
  trace     : list Event          (* the effects so far, oldest first *)
}.

Definition set_files (m : gmap string File) (s : State) : State :=
  {| files := m; pinned := pinned s; procs := procs s; next_pid := next_pid s;
     cells := cells s; children := children s; trace := trace s |}.

Definition set_procs (m : gmap Z bool) (s : State) : State :=
  {| files := files s; pinned := pinned s; procs := m; next_pid := next_pid s;
     cells := cells s; children := children s; trace := trace s |}.

Definition set_next_pid (p : positive) (s : State) : State :=
  {| files := files s; pinned := pinned s; procs := procs s; next_pid := p;
     cells := cells s; children := children s; trace := trace s |}.

Definition set_cells (c : list bool) (s : State) : State :=
  {| files := files s; pinned := pinned s; procs := procs s; next_pid := next_pid s;
     cells := c; children := children s; trace := trace s |}.

Definition set_children (c : list Instance) (s : State) : State :=
  {| files := files s; pinned := pinned s; procs := procs s; next_pid := next_pid s;
     cells := cells s; children := c; trace := trace s |}.

Definition emit (e : Event) (s : State) : State :=
  {| files := files s; pinned := pinned s; procs := procs s; next_pid := next_pid s;
     cells := cells s; children := children s; trace := trace s ++ [e] |}.

(** ** Statements that may throw: state and exceptions *)

Inductive Result (A : Type) :=
| Ok (a : A)
| Throw (e : Exn).
Arguments Ok {A} a.
Arguments Throw {A} e.

Definition M (A : Type) : Type := State -> Result A * State.

Definition ret {A} (a : A) : M A := fun s => (Ok a, s).

Definition bind {A B} (m : M A) (k : A -> M B) : M B :=
  fun s => match m s with
           | (Ok a, s') => k a s'
           | (Throw e, s') => (Throw e, s')
           end.

Definition throw {A} (e : Exn) : M A := fun s => (Throw e, s).

Definition modify (f : State -> State) : M unit := fun s => (Ok tt, f s).

Definition gets {A} (f : State -> A) : M A := fun s => (Ok (f s), s).

(** [try { body } catch (error) { }]: what the body did up to the throw
    stays done, the exception is dropped. *)
Definition try_catch_ignore (body : M unit) : M unit :=
  fun s => (Ok tt, snd (body s)).

Declare Scope js_scope.
Delimit Scope js_scope with js.
Notation "x <- m ;; k" := (bind m (fun x => k))
  (at level 100, m at next level, k at level 200, right associativity) : js_scope.
Notation "m ;; k" := (bind m (fun _ => k))
  (at level 100, k at level 200, right associativity) : js_scope.
Local Open Scope js_scope.

(** ** Node's library calls, on the model *)

(** [fs.existsSync(path)] *)
Definition fs_existsSync (path : string) : M bool :=
  fun s => let found := bool_decide (is_Some (files s !! path)) in
           (Ok found, emit (EvExists path found) s).

(** [fs.readFileSync(path, 'utf8')]: throws on a file that cannot be read. *)
Definition fs_readFileSync (path : string) : M string :=
  fun s => match files s !! path with
           | Some (Readable content) => (Ok content, emit (EvRead path) s)
           | _ => (Throw (ReadFailed path), s)
           end.

(** [process.kill(pid)], signal SIGTERM: throws TypeError on a value that is
    no process id, ESRCH when nothing has the id, EPERM when the caller may
    not signal it; a delivered signal is taken to end its target before the
    call returns.  The table holds what the caller can address apart from
    itself: an id that reaches the caller (its own id, or 0 and the negative
    ids of groups it belongs to) ends the task inside the call and is not
    covered, and a group is one entry, not its members. *)
Definition process_kill (pid : string) : M unit :=
  fun s => match Js.valid_pid pid with
           | None => (Throw (KillFailed TypeError_invalid_pid),
                      emit (EvKill pid (Some TypeError_invalid_pid)) s)
           | Some n =>
               match procs s !! n with
               | None => (Throw (KillFailed ESRCH), emit (EvKill pid (Some ESRCH)) s)
               | Some false => (Throw (KillFailed EPERM), emit (EvKill pid (Some EPERM)) s)
               | Some true => (Ok tt, emit (EvKill pid None) (set_procs (delete n (procs s)) s))
               end
           end.

(** [fs.unlinkSync(path)]: throws when the entry cannot be removed. *)
Definition fs_unlinkSync (path : string) : M unit :=
  fun s => if bool_decide (is_Some (files s !! path) ∧ path ∉ pinned s)
           then (Ok tt, emit (EvUnlink path true) (set_files (delete path (files s)) s))
           else (Throw (UnlinkFailed path), emit (EvUnlink path false) s).

(** The ChildProcess object that [spawn] returns. *)
Record ChildProcess := {
  child_pid  : positive;
  child_argv : list string
}.

(** [spawn(cmd, args, { detached: true })]: the operating system creates the
    process and the call returns at once with its handle.  The command is
    taken to exist; a spawn that the system rejects is not modelled. *)
Definition spawn (cmd : string) (args : list string) : M ChildProcess :=
  fun s => let p := next_pid s in
           (Ok {| child_pid := p; child_argv := args |},
            emit (EvSpawn cmd args p)
              (set_procs (<[Z.pos p := true]> (procs s))
                 (set_next_pid (Pos.succ p) s))).

(** The segments of a path, between its slashes. *)
Fixpoint segments_go (s cur : string) : list string :=
  match s with
  | EmptyString => [cur]
  | String c r =>
      if Ascii.eqb c "/"
      then cur :: segments_go r EmptyString
      else segments_go r (cur +:+ String c EmptyString)
  end.

Definition segments (s : string) : list string := segments_go s EmptyString.

(** One segment more on the normalised path, which is kept last segment
    first: empty segments and [.] are dropped, [..] takes the last segment
    away and stays at the root when there is none. *)
Definition normalize_step (stack : list string) (seg : string) : list string :=
  if String.eqb seg "" || String.eqb seg "." then stack
  else if String.eqb seg ".." then tail stack
  else seg :: stack.

Definition normalize (segs : list string) : list string :=
  rev (fold_left normalize_step segs []).

(** The absolute path with the given segments. *)
Definition absolute (segs : list string) : string :=
  match segs with
  | [] => "/"
  | _ => fold_right (fun seg rest => "/" +:+ seg +:+ rest) "" segs
  end.

(** [path.resolve(root, filepath)] on POSIX, for an absolute [root] as
    [path.dirname(__dirname)] is: an absolute [filepath] stands, a relative
    one is put under [root], and the result is normalised. *)
Definition path_resolve (root filepath : string) : string :=
  absolute (normalize (segments
    match filepath with
    | String "/"%char _ => filepath
    | _ => root +:+ "/" +:+ filepath
    end)).

(** ** The task body *)

(** A file group [f] of [this.files] that has a [dest]: [f.src] and
    [f.dest[0]].  A file group without [dest] makes [f.dest[0]] of line 43
    throw before the try block; such a group is no value of this type. *)
Record FileGroup := {
  src   : list string;
  dest0 : string
}.

(** [var _restart;] a fresh variable, undefined. *)
Definition declare_restart : M nat :=
  fun s => (Ok (length (cells s)), set_cells (cells s ++ [false]) s).

(** [_restart = true;] *)
Definition assign_restart (cell : nat) : M unit :=
  modify (fun s => set_cells (<[cell := true]> (cells s)) s).

(** The value of [_restart] as a condition. *)
Definition read_restart (cell : nat) : M bool :=
  gets (fun s => default false (cells s !! cell)).

(** [_instance.on('close', function (code) { ... })]: the listener is kept
    with what it closes over, [_instance], [f] and [_restart]. *)
Definition on_close (_instance : ChildProcess) (dest : string) (cell : nat) : M unit :=
  modify (fun s =>
    set_children (children s ++
      [{| inst_pid := child_pid _instance; inst_args := child_argv _instance;
          inst_dest := dest; inst_cell := cell |}]) s).

(** The callback given to [f.src.filter], lines 39 to 102.  [root] is
    [path.dirname(__dirname)], [dest] is [f.dest[0]] and [cell] the
    [_restart] of the enclosing forEach body.  It has no return statement,
    so nothing is kept.  The ['data'] listeners of lines 70 to 76 copy the
    output of the child to the console and are left out. *)
Definition filter_callback (root dest : string) (cell : nat) (filepath : string) : M bool :=
  let _path := path_resolve root filepath in
  found <- fs_existsSync dest ;;
  (if found : bool then
     try_catch_ignore
       (pid <- fs_readFileSync dest ;;
        process_kill pid ;;
        fs_unlinkSync dest ;;
        assign_restart cell)
   else ret tt) ;;
  _instance <- spawn "haproxy" ["-f "; _path; "-p "; dest; "-D"] ;;
  on_close _instance dest cell ;;
  ret false.

(** [Array.prototype.filter] with a callback that has effects. *)
Fixpoint Array_filter (cb : string -> M bool) (l : list string) : M (list string) :=
  match l with
  | [] => ret []
  | x :: r =>
      keep <- cb x ;;
      kept <- Array_filter cb r ;;
      ret (if keep : bool then x :: kept else kept)
  end.

(** The body of [this.files.forEach(function (f) { ... })], lines 34 to 105. *)
Definition forEach_body (root : string) (f : FileGroup) : M (list string) :=
  _restart <- declare_restart ;;
  Array_filter (filter_callback root (dest0 f) _restart) (src f).

Fixpoint Array_forEach (body : FileGroup -> M (list string)) (l : list FileGroup) : M unit :=
  match l with
  | [] => ret tt
  | f :: r => body f ;; Array_forEach body r
  end.

(** The task function registered by [grunt.registerMultiTask]. *)
Definition haproxy_task (root : string) (this_files : list FileGroup) : M unit :=
  Array_forEach (forEach_body root) this_files.

(** [grunt.task.run([task])] *)
Definition grunt_task_run (task : string) : M unit := modify (emit (EvTaskRun task)).

(** The ['close'] listener, lines 78 to 100.  [code] is the exit code, or
    null ([None]) when a signal ended the process. *)
Definition close_listener (i : Instance) (code : option Z) : M unit :=
  modify (emit (EvConsoleStarted (inst_pid i) (inst_dest i) code)) ;;
  _restart <- read_restart (inst_cell i) ;;
  (if _restart : bool
   then grunt_task_run "notify:haproxyReloaded"
   else grunt_task_run "notify:haproxyStarted") ;;
  modify (emit EvDone) ;;
  (if bool_decide (code = Some 0)
   then ret tt
   else modify (emit (EvConsoleExited code))).

(** Running a statement for its effect on the state. *)
Definition exec {A} (m : M A) (s : State) : State := snd (m s).

(** ** What the claims observe *)

(** The notify tasks handed to [grunt.task.run], oldest first. *)
Definition notifications (s : State) : list string :=
  omap (fun e => match e with EvTaskRun t => Some t | _ => None end) (trace s).

(** The spawn calls issued, oldest first: argument vector and process id. *)
Definition spawns (s : State) : list (list string * positive) :=
  omap (fun e => match e with EvSpawn _ args p => Some (args, p) | _ => None end) (trace s).

(** A process is live while kill(2) still finds it. *)
Definition live (s : State) (p : positive) : bool :=
  bool_decide (is_Some (procs s !! Z.pos p)).

(** The children that were started with [-p dest] and still run. *)
Definition live_bound (s : State) (dest : string) : list Instance :=
  filter (fun i => inst_dest i = dest ∧ live s (inst_pid i) = true) (children s).

(** ** The environment between two runs of the task *)

(** What the supervised program does, which is no part of the repository:
    haproxy started with [-D -p dest] goes to the background; the daemon
    gets a process id of its own, writes it to [dest], and the process that
    was spawned exits with code 0.  Only a child that was spawned and still
    runs can do so. *)
Definition haproxy_daemonize (i : Instance) (s : State) : State :=
  if live s (inst_pid i) then
    let d := next_pid s in
    set_files (<[inst_dest i := Readable (Js.pid_text d)]> (files s))
      (set_procs (<[Z.pos d := true]> (delete (Z.pos (inst_pid i)) (procs s)))
         (set_next_pid (Pos.succ d) s))
  else s.

(** The system moves by a run of the task, by a ['close'] event of a child,
    or by a change of files and processes that the task has no part in. *)
Inductive step (root : string) : State -> State -> Prop :=
| step_task this_files s :
    step root s (exec (haproxy_task root this_files) s)
| step_close i code s :
    i ∈ children s ->
    step root s (exec (close_listener i code) s)
| step_world s s' :
    cells s' = cells s -> children s' = children s -> trace s' = trace s ->
    step root s s'.

(** ** The callback in two halves *)

(** Lines 43 to 60: the check for a PID file and the guarded termination. *)
Definition check_and_terminate (dest : string) (cell : nat) : M unit :=
  found <- fs_existsSync dest ;;
  (if found : bool then
     try_catch_ignore
       (pid <- fs_readFileSync dest ;;
        process_kill pid ;;
        fs_unlinkSync dest ;;
        assign_restart cell)
   else ret tt).

(** The argument vector of line 62. *)
Definition haproxy_args (root dest filepath : string) : list string :=
  ["-f "; path_resolve root filepath; "-p "; dest; "-D"].

(** Lines 62 to 100: the spawn and the registration of the listener. *)
Definition launch (root dest : string) (cell : nat) (filepath : string) : M unit :=
  _instance <- spawn "haproxy" (haproxy_args root dest filepath) ;;
  on_close _instance dest cell.

(** The child that [launch] creates in state [s]. *)
Definition new_instance (root dest : string) (cell : nat) (filepath : string)
    (s : State) : Instance :=
  {| inst_pid := next_pid s; inst_args := haproxy_args root dest filepath;
     inst_dest := dest; inst_cell := cell |}.

(** Which events belong to the check and the termination. *)
Definition is_check_event (e : Event) : bool :=
  match e with
  | EvExists _ _ | EvRead _ | EvKill _ _ | EvUnlink _ _ => true
  | _ => false
  end.

(** The outcomes of the first half, case by case. *)
Inductive Checked (dest : string) (cell : nat) (s : State) : State -> Prop :=
| Checked_absent :
    files s !! dest = None ->
    Checked dest cell s (emit (EvExists dest false) s)
| Checked_unreadable :
    files s !! dest = Some Unreadable ->
    Checked dest cell s (emit (EvExists dest true) s)
| Checked_kill_failed content e :
    files s !! dest = Some (Readable content) ->
    match Js.valid_pid content with
    | None => e = TypeError_invalid_pid
    | Some n => (procs s !! n = None ∧ e = ESRCH) ∨ (procs s !! n = Some false ∧ e = EPERM)
    end ->
    Checked dest cell s
      (emit (EvKill content (Some e)) (emit (EvRead dest) (emit (EvExists dest true) s)))
| Checked_unlink_failed content n :
    files s !! dest = Some (Readable content) ->
    Js.valid_pid content = Some n ->
    procs s !! n = Some true ->
    dest ∈ pinned s ->
    Checked dest cell s
      (emit (EvUnlink dest false)
         (emit (EvKill content None)
            (set_procs (delete n (procs s))
               (emit (EvRead dest) (emit (EvExists dest true) s)))))
| Checked_terminated content n :
    files s !! dest = Some (Readable content) ->
    Js.valid_pid content = Some n ->
    procs s !! n = Some true ->
    dest ∉ pinned s ->
    Checked dest cell s
      (set_cells (<[cell := true]> (cells s))
         (emit (EvUnlink dest true)
            (set_files (delete dest (files s))
               (emit (EvKill content None)
                  (set_procs (delete n (procs s))
                     (emit (EvRead dest) (emit (EvExists dest true) s))))))).

(** The children of one run of [f.src.filter]: process ids are handed out in
    order, all else is the same for every entry. *)
Fixpoint instances_from (root dest : string) (cell : nat) (p : positive)
    (l : list string) : list Instance :=
  match l with
  | [] => []
  | fp :: r =>
      {| inst_pid := p; inst_args := haproxy_args root dest fp;
         inst_dest := dest; inst_cell := cell |}
      :: instances_from root dest cell (Pos.succ p) r
  end.

(** What one ['close'] event does. *)
Definition notify_task (_restart : bool) : string :=
  if _restart then "notify:haproxyReloaded" else "notify:haproxyStarted".

(** ** Scenarios *)

(** The newest child goes to the background and its ['close'] event fires
    with exit code 0. *)
Definition settle (s : State) : State :=
  match last (children s) with
  | Some i => exec (close_listener i (Some 0)) (haproxy_daemonize i s)
  | None => s
  end.

(** One cycle for one target: the task runs on it, then the child settles. *)
Definition cycle (root : string) (f : FileGroup) (s : State) : State :=
  settle (exec (haproxy_task root [f]) s).

Definition plugin_root : string := "/opt/grunt-haproxy".
Definition pid_file : string := "/var/run/haproxy-wamp.pid".

(** The target of the plugin's own gruntfile: one configuration, one PID
    file. *)
Definition wamp : FileGroup :=
  {| src := ["test/fixtures/haproxy-wamp.cfg"]; dest0 := pid_file |}.

(** One destination declared with two sources. *)
Definition two_sources : FileGroup :=
  {| src := ["etc/a.cfg"; "etc/b.cfg"]; dest0 := pid_file |}.

(** A machine with no files and no processes of interest. *)
Definition boot : State :=
  {| files := ∅; pinned := ∅; procs := ∅; next_pid := 100%positive;
     cells := []; children := []; trace := [] |}.

(** A project that holds the configuration at the path of its gruntfile,
    relative to the directory grunt runs in.  The callback resolves the path
    against the directory of the plugin, where no such file is. *)
Definition project : State :=
  set_files {[ "test/fixtures/haproxy-wamp.cfg" := Readable "listen wamp" ]} boot.

(** [boot] with a PID file of the given content, and a process table. *)
Definition with_pid_file (content : string) (ps : gmap Z bool) : State :=
  set_procs ps (set_files {[ pid_file := Readable content ]} boot).

(** ** Further observations *)

(** A run of ['close'] events, one after the other: each names the child
    that closed and its exit code. *)
Definition close_all (events : list (Instance * option Z)) (s : State) : State :=
  foldl (fun st ev => exec (close_listener (fst ev) (snd ev)) st) s events.

(** How often [done()] has been called. *)
Definition dones (s : State) : nat :=
  length (omap (fun e => match e with EvDone => Some tt | _ => None end) (trace s)).

(** The signals that were delivered, by the text given to [process.kill]. *)
Definition kills (s : State) : list string :=
  omap (fun e => match e with EvKill pid None => Some pid | _ => None end) (trace s).

(** The targets of the [notify] task that gruntfile.js configures, lines 66
    to 92, with their messages. *)
Definition notify_targets : list (string * string) :=
  [ ("haproxyStarted", "Haproxy started.");
    ("haproxyFailed", "Haproxy failed to start.");
    ("haproxyReloaded", "Haproxy reloaded.");
    ("haproxyStopped", "Haproxy stopped.") ].

(** The task names that run the configured targets. *)
Definition notify_tasks : list string :=
  map (fun t => "notify:" +:+ fst t) notify_targets.

(** The spawn arguments of a whole run: group by group, entry by entry. *)
Definition all_args (root : string) (this_files : list FileGroup) : list (list string) :=
  flat_map (fun f => map (haproxy_args root (dest0 f)) (src f)) this_files.

(** The events of the synchronous part: checks, termination and spawns. *)
Definition is_sync_event (e : Event) : bool :=
  match e with
  | EvExists _ _ | EvRead _ | EvKill _ _ | EvUnlink _ _ | EvSpawn _ _ _ => true
  | _ => false
  end.

(** An event is none of the listed ones, which all differ from it. *)
Ltac no_such_event H :=
  repeat (apply elem_of_cons in H as [H|H]; [discriminate H|]);
  apply elem_of_nil in H; exact H.

(** * Properties *)

(** ** The two halves of the callback *)

Lemma filter_callback_split root dest cell fp s :
  exec (filter_callback root dest cell fp) s
  = exec (launch root dest cell fp) (exec (check_and_terminate dest cell) s).
Proof.
  unfold exec, filter_callback, check_and_terminate, launch, haproxy_args, bind,
    fs_existsSync.
  destruct (bool_decide _); reflexivity.
Qed.

Lemma filter_callback_result root dest cell fp s :
  fst (filter_callback root dest cell fp s) = Ok false.
Proof.
  unfold filter_callback, bind, fs_existsSync.
  destruct (bool_decide _); reflexivity.
Qed.

Lemma launch_state root dest cell fp s :
  exec (launch root dest cell fp) s
  = {| files := files s; pinned := pinned s;
       procs := <[Z.pos (next_pid s) := true]> (procs s);
       next_pid := Pos.succ (next_pid s);
       cells := cells s;
       children := children s ++ [new_instance root dest cell fp s];
       trace := trace s ++ [EvSpawn "haproxy" (haproxy_args root dest fp) (next_pid s)] |}.
Proof. reflexivity. Qed.

Lemma check_and_terminate_cases dest cell s :
  Checked dest cell s (exec (check_and_terminate dest cell) s).
Proof.
  unfold exec, check_and_terminate, bind, fs_existsSync.
  destruct (files s !! dest) as [[content|]|] eqn:Hf.
  - rewrite bool_decide_eq_true_2 by eauto.
    unfold try_catch_ignore, bind, fs_readFileSync, process_kill; simpl.
    rewrite Hf.
    destruct (Js.valid_pid content) as [n|] eqn:Hv; simpl.
    + destruct (procs s !! n) as [[|]|] eqn:Hp; simpl.
      * unfold fs_unlinkSync; simpl. rewrite Hf.
        destruct (decide (dest ∈ pinned s)) as [Hin|Hin].
        -- rewrite bool_decide_eq_false_2 by (intros [_ H]; auto).
           simpl. eapply Checked_unlink_failed; eauto.
        -- rewrite bool_decide_eq_true_2 by (split; eauto).
           simpl. eapply Checked_terminated; eauto.
      * eapply Checked_kill_failed; eauto. rewrite Hv. auto.
      * eapply Checked_kill_failed; eauto. rewrite Hv. auto.
    + eapply Checked_kill_failed; eauto. rewrite Hv. auto.
  - rewrite bool_decide_eq_true_2 by eauto.
    unfold try_catch_ignore, bind, fs_readFileSync; simpl. rewrite Hf. simpl.
    apply Checked_unreadable; auto.
  - rewrite bool_decide_eq_false_2 by (intros [x Hx]; discriminate).
    simpl. apply Checked_absent; auto.
Qed.

(** What the first half leaves alone. *)
Lemma check_and_terminate_frame dest cell s :
  let s' := exec (check_and_terminate dest cell) s in
  children s' = children s ∧ next_pid s' = next_pid s ∧ pinned s' = pinned s ∧
  length (cells s') = length (cells s) ∧
  (cells s' = cells s ∨ cells s' = <[cell := true]> (cells s)).
Proof.
  simpl. destruct (check_and_terminate_cases dest cell s); simpl;
    rewrite ?length_insert; auto 10.
Qed.

Lemma check_and_terminate_trace dest cell s :
  ∃ pre, trace (exec (check_and_terminate dest cell) s) = trace s ++ pre ∧
         pre ≠ [] ∧ forallb is_check_event pre = true.
Proof.
  destruct (check_and_terminate_cases dest cell s); simpl;
    rewrite <- ?app_assoc; simpl; eexists; (split; [reflexivity|]); split;
    (discriminate || reflexivity).
Qed.

Lemma cells_set_mono (c : list bool) (cell k : nat) :
  c !! k = Some true -> <[cell := true]> c !! k = Some true.
Proof.
  intros H. destruct (decide (cell = k)) as [->|Hne].
  - apply list_lookup_insert_eq. eapply lookup_lt_Some; eauto.
  - rewrite list_lookup_insert_ne; auto.
Qed.

Lemma check_and_terminate_mono dest cell s k :
  cells s !! k = Some true ->
  cells (exec (check_and_terminate dest cell) s) !! k = Some true.
Proof.
  intros H. destruct (check_and_terminate_frame dest cell s) as (_ & _ & _ & _ & [E|E]);
    rewrite E; auto using cells_set_mono.
Qed.

Lemma omap_snoc {A B} (f : A -> option B) (l : list A) (x : A) :
  omap f (l ++ [x]) = omap f l ++ match f x with Some y => [y] | None => [] end.
Proof. rewrite omap_app. simpl. destruct (f x); reflexivity. Qed.

Lemma omap_check_events {B} (f : Event -> option B) (pre : list Event) :
  (∀ e, is_check_event e = true -> f e = None) ->
  forallb is_check_event pre = true -> omap f pre = [].
Proof.
  intros Hf. induction pre as [|e pre IH]; simpl; [reflexivity|].
  intros [He Hpre]%andb_prop. rewrite (Hf e He). auto.
Qed.

Lemma check_and_terminate_notifications dest cell s :
  notifications (exec (check_and_terminate dest cell) s) = notifications s.
Proof.
  destruct (check_and_terminate_trace dest cell s) as (pre & E & _ & Hpre).
  unfold notifications. rewrite E, omap_app, (omap_check_events _ pre), app_nil_r; auto.
  intros []; simpl; congruence.
Qed.

Lemma check_and_terminate_spawns dest cell s :
  spawns (exec (check_and_terminate dest cell) s) = spawns s.
Proof.
  destruct (check_and_terminate_trace dest cell s) as (pre & E & _ & Hpre).
  unfold spawns. rewrite E, omap_app, (omap_check_events _ pre), app_nil_r; auto.
  intros []; simpl; congruence.
Qed.

Lemma launch_spawns root dest cell fp s :
  spawns (exec (launch root dest cell fp) s)
  = spawns s ++ [(haproxy_args root dest fp, next_pid s)].
Proof. rewrite launch_state. unfold spawns. simpl. rewrite omap_snoc. reflexivity. Qed.

Lemma launch_notifications root dest cell fp s :
  notifications (exec (launch root dest cell fp) s) = notifications s.
Proof.
  rewrite launch_state. unfold notifications. simpl.
  rewrite omap_snoc. simpl. apply app_nil_r.
Qed.

(** ** The loops *)

Lemma Array_filter_step (cb : string -> M bool) x r s :
  fst (cb x s) = Ok false ->
  exec (Array_filter cb (x :: r)) s = exec (Array_filter cb r) (exec (cb x) s).
Proof.
  unfold exec. simpl. unfold bind. destruct (cb x s) as [[b|e] s1]; simpl.
  - intros [= ->]. destruct (Array_filter cb r s1) as [[k|e] s2]; reflexivity.
  - discriminate.
Qed.

(** The callback never keeps an entry: the array [src] of line 39 is empty. *)
Lemma Array_filter_result root dest cell l s :
  fst (Array_filter (filter_callback root dest cell) l s) = Ok [].
Proof.
  revert s. induction l as [|x r IH]; intros s; [reflexivity|].
  simpl. unfold bind.
  pose proof (filter_callback_result root dest cell x s) as H.
  destruct (filter_callback root dest cell x s) as [[b|e] s1]; simpl in H; [|discriminate].
  injection H as ->. specialize (IH s1).
  destruct (Array_filter _ r s1) as [[k|e] s2]; simpl in IH; [|discriminate].
  injection IH as ->. reflexivity.
Qed.

(** One run of the callback: one more child, one more spawn, no notification. *)
Lemma filter_callback_effect root dest cell fp s :
  let s' := exec (filter_callback root dest cell fp) s in
  children s' = children s ++ instances_from root dest cell (next_pid s) [fp] ∧
  next_pid s' = Pos.succ (next_pid s) ∧
  spawns s' = spawns s ++ [(haproxy_args root dest fp, next_pid s)] ∧
  notifications s' = notifications s ∧
  length (cells s') = length (cells s) ∧
  (∀ k, cells s !! k = Some true -> cells s' !! k = Some true).
Proof.
  cbv zeta. rewrite filter_callback_split.
  destruct (check_and_terminate_frame dest cell s) as (Hc & Hn & _ & Hl & _).
  rewrite launch_spawns, launch_notifications, check_and_terminate_spawns,
    check_and_terminate_notifications, launch_state. simpl.
  unfold new_instance. rewrite Hc, Hn, Hl.
  repeat split; auto using check_and_terminate_mono.
Qed.

Lemma Array_filter_children root dest cell l s :
  let s' := exec (Array_filter (filter_callback root dest cell) l) s in
  children s' = children s ++ instances_from root dest cell (next_pid s) l ∧
  spawns s' = spawns s ++
    map (fun i => (inst_args i, inst_pid i)) (instances_from root dest cell (next_pid s) l) ∧
  notifications s' = notifications s ∧
  length (cells s') = length (cells s) ∧
  (∀ k, cells s !! k = Some true -> cells s' !! k = Some true).
Proof.
  revert s. induction l as [|fp r IH]; intros s.
  - simpl. rewrite !app_nil_r. auto.
  - cbv zeta. rewrite Array_filter_step by apply filter_callback_result.
    destruct (filter_callback_effect root dest cell fp s) as (Hc & Hp & Hs & Hn & Hl & Hm).
    destruct (IH (exec (filter_callback root dest cell fp) s)) as (IHc & IHs & IHn & IHl & IHm).
    rewrite IHc, IHs, IHn, IHl, Hc, Hp, Hs, Hn, Hl. simpl.
    rewrite <- !app_assoc. simpl. repeat split; auto.
Qed.

Lemma forEach_body_exec root f s :
  exec (forEach_body root f) s
  = exec (Array_filter (filter_callback root (dest0 f) (length (cells s))) (src f))
      (set_cells (cells s ++ [false]) s).
Proof. reflexivity. Qed.

Lemma forEach_body_result root f s : fst (forEach_body root f s) = Ok [].
Proof.
  unfold forEach_body, bind, declare_restart. apply Array_filter_result.
Qed.

(** One run of the forEach body: a fresh [_restart], then one child per
    entry of [f.src], all with the same [f.dest[0]] and the same [_restart]. *)
Lemma forEach_body_effect root f s :
  let s' := exec (forEach_body root f) s in
  children s' = children s ++
    instances_from root (dest0 f) (length (cells s)) (next_pid s) (src f) ∧
  spawns s' = spawns s ++
    map (fun i => (inst_args i, inst_pid i))
      (instances_from root (dest0 f) (length (cells s)) (next_pid s) (src f)) ∧
  notifications s' = notifications s ∧
  length (cells s') = S (length (cells s)) ∧
  (∀ k, cells s !! k = Some true -> cells s' !! k = Some true).
Proof.
  cbv zeta. rewrite forEach_body_exec.
  destruct (Array_filter_children root (dest0 f) (length (cells s)) (src f)
              (set_cells (cells s ++ [false]) s)) as (Hc & Hs & Hn & Hl & Hm).
  rewrite Hc, Hs, Hn, Hl. simpl. rewrite length_app. simpl.
  repeat split; [lia|].
  intros k Hk. apply Hm. simpl. apply lookup_app_l_Some. exact Hk.
Qed.

Lemma Array_forEach_step root f r s :
  exec (Array_forEach (forEach_body root) (f :: r)) s
  = exec (Array_forEach (forEach_body root) r) (exec (forEach_body root f) s).
Proof.
  unfold exec. simpl. unfold bind.
  pose proof (forEach_body_result root f s) as H.
  destruct (forEach_body root f s) as [[k|e] s1]; simpl in H; [reflexivity|discriminate].
Qed.

(** The synchronous part of the task hands nothing to [grunt.task.run], and
    it never takes back a [_restart] that was set. *)
Lemma haproxy_task_effect root this_files s :
  let s' := exec (haproxy_task root this_files) s in
  notifications s' = notifications s ∧
  (∀ k, cells s !! k = Some true -> cells s' !! k = Some true) ∧
  (∃ new, children s' = children s ++ new).
Proof.
  unfold haproxy_task. revert s.
  induction this_files as [|f r IH]; intros s; cbv zeta.
  - simpl. repeat split; auto. exists []. rewrite app_nil_r. reflexivity.
  - rewrite Array_forEach_step.
    destruct (forEach_body_effect root f s) as (Hc & _ & Hn & _ & Hm).
    destruct (IH (exec (forEach_body root f) s)) as (IHn & IHm & new & IHc).
    rewrite IHn, Hn, IHc, Hc. repeat split; auto.
    eexists. rewrite <- app_assoc. reflexivity.
Qed.

(** ** The ['close'] listener and later moments *)

Lemma close_listener_state i code s :
  exec (close_listener i code) s
  = {| files := files s; pinned := pinned s; procs := procs s;
       next_pid := next_pid s; cells := cells s; children := children s;
       trace := trace s ++
         [EvConsoleStarted (inst_pid i) (inst_dest i) code;
          EvTaskRun (notify_task (default false (cells s !! inst_cell i)));
          EvDone] ++
         (if bool_decide (code = Some 0) then [] else [EvConsoleExited code]) |}.
Proof.
  unfold exec, close_listener, bind, read_restart, gets, modify, grunt_task_run,
    notify_task. simpl.
  destruct (default false (cells s !! inst_cell i)); simpl;
    destruct (bool_decide (code = Some 0)); simpl; unfold emit; simpl;
    rewrite <- ?app_assoc; simpl; rewrite ?app_nil_r; reflexivity.
Qed.

Lemma close_listener_notifications i code s :
  notifications (exec (close_listener i code) s)
  = notifications s ++ [notify_task (default false (cells s !! inst_cell i))].
Proof.
  rewrite close_listener_state. unfold notifications. simpl.
  rewrite omap_app. simpl. destruct (bool_decide (code = Some 0)); reflexivity.
Qed.

Lemma notify_task_cases b :
  notify_task b = "notify:haproxyStarted" ∨ notify_task b = "notify:haproxyReloaded".
Proof. destruct b; auto. Qed.

(** A [_restart] that is set stays set, whatever happens next. *)
Lemma step_cells_mono root s s' k :
  step root s s' -> cells s !! k = Some true -> cells s' !! k = Some true.
Proof.
  intros [fs s0|i code s0 Hi|s0 s1 Hc Hch Ht] Hk.
  - apply haproxy_task_effect. exact Hk.
  - rewrite close_listener_state. exact Hk.
  - rewrite Hc. exact Hk.
Qed.

Lemma steps_cells_mono root s s' k :
  rtc (step root) s s' -> cells s !! k = Some true -> cells s' !! k = Some true.
Proof.
  induction 1 as [|x y z Hxy _ IH]; auto.
  intros Hk. apply IH. eapply step_cells_mono; eauto.
Qed.

(** ** A PID file written by the daemon is read back as its process id *)

Module JsFacts.
Import Js.

Lemma list_ascii_of_string_app (a b : string) :
  list_ascii_of_string (a +:+ b) = list_ascii_of_string a ++ list_ascii_of_string b.
Proof. induction a as [|c a IH]; simpl; [reflexivity|]. f_equal. exact IH. Qed.

Lemma string_of_uint_digits d : all_digits (NilEmpty.string_of_uint d) = true.
Proof. induction d; simpl; auto. Qed.

Lemma all_digits_list s :
  all_digits s = true -> Forall (fun c => is_digit c = true) (list_ascii_of_string s).
Proof.
  induction s as [|c r IH]; simpl; [constructor|].
  intros [Hc Hr]%andb_prop. constructor; auto.
Qed.

(** A digit is no white space and no byte of a longer white-space code. *)
Lemma digit_not_space c :
  is_digit c = true ->
  ws1 (N_of_ascii c) = false ∧
  (∀ b, ws2 (N_of_ascii c) b = false) ∧ (∀ a, ws2 a (N_of_ascii c) = false) ∧
  (∀ b d, ws3 (N_of_ascii c) b d = false) ∧ (∀ a b, ws3 a b (N_of_ascii c) = false).
Proof.
  intros H.
  assert (Hb : (48 <= N_of_ascii c <= 57)%N).
  { destruct c as [[] [] [] [] [] [] [] []]; simpl in H; try discriminate;
      vm_compute; split; discriminate. }
  repeat split.
  - destruct c as [[] [] [] [] [] [] [] []]; simpl in H; try discriminate; reflexivity.
  - intros b. unfold ws2. replace (N_of_ascii c =? 194)%N with false; [reflexivity|].
    symmetry. apply N.eqb_neq. lia.
  - intros a. unfold ws2. replace (N_of_ascii c =? 160)%N with false; [apply andb_false_r|].
    symmetry. apply N.eqb_neq. lia.
  - intros b d. unfold ws3.
    replace (N_of_ascii c =? 225)%N with false by (symmetry; apply N.eqb_neq; lia).
    replace (N_of_ascii c =? 226)%N with false by (symmetry; apply N.eqb_neq; lia).
    replace (N_of_ascii c =? 227)%N with false by (symmetry; apply N.eqb_neq; lia).
    replace (N_of_ascii c =? 239)%N with false by (symmetry; apply N.eqb_neq; lia).
    reflexivity.
  - intros a b. unfold ws3.
    replace (N_of_ascii c =? 128)%N with false by (symmetry; apply N.eqb_neq; lia).
    replace (128 <=? N_of_ascii c)%N with false by (symmetry; apply N.leb_gt; lia).
    replace (N_of_ascii c =? 168)%N with false by (symmetry; apply N.eqb_neq; lia).
    replace (N_of_ascii c =? 169)%N with false by (symmetry; apply N.eqb_neq; lia).
    replace (N_of_ascii c =? 175)%N with false by (symmetry; apply N.eqb_neq; lia).
    replace (N_of_ascii c =? 159)%N with false by (symmetry; apply N.eqb_neq; lia).
    replace (N_of_ascii c =? 191)%N with false by (symmetry; apply N.eqb_neq; lia).
    rewrite !andb_false_r. reflexivity.
Qed.

Lemma strip_head_digit c r : is_digit c = true -> strip_head (c :: r) = None.
Proof.
  intros H. destruct (digit_not_space c H) as (H1 & H2 & _ & H3 & _).
  unfold strip_head. rewrite H1. destruct r as [|b r]; [reflexivity|].
  rewrite H2. destruct r as [|d r]; [reflexivity|]. rewrite H3. reflexivity.
Qed.

Lemma strip_last_digit c r : is_digit c = true -> strip_last (c :: r) = None.
Proof.
  intros H. destruct (digit_not_space c H) as (H1 & _ & H2 & _ & H3).
  unfold strip_last. rewrite H1. destruct r as [|b r]; [reflexivity|].
  rewrite H2. destruct r as [|d r]; [reflexivity|]. rewrite H3. reflexivity.
Qed.

Lemma strip_all_none strip n l : strip l = None -> strip_all strip n l = l.
Proof. intros H. destruct n; simpl; [reflexivity|]. rewrite H. reflexivity. Qed.

(** The digits of a PID file are what is left of its text. *)
Lemma trim_digits_newline s :
  all_digits s = true -> s ≠ EmptyString ->
  trim (s +:+ String (ascii_of_nat 10) EmptyString) = s.
Proof.
  intros Hd Hne. unfold trim. rewrite list_ascii_of_string_app.
  pose proof (all_digits_list s Hd) as HF.
  change (list_ascii_of_string (String (ascii_of_nat 10) EmptyString))
    with [ascii_of_nat 10].
  set (l := list_ascii_of_string s) in *.
  assert (Hl : l ≠ []).
  { intros E. apply Hne. rewrite <- (string_of_list_ascii_of_string s). fold l.
    rewrite E. reflexivity. }
  assert (E1 : strip_all strip_head (length (l ++ [ascii_of_nat 10])) (l ++ [ascii_of_nat 10])
               = l ++ [ascii_of_nat 10]).
  { apply strip_all_none. destruct l as [|c r]; [congruence|].
    apply strip_head_digit. inversion HF; assumption. }
  rewrite E1, rev_app_distr, length_app. simpl.
  rewrite Nat.add_1_r. simpl.
  rewrite strip_all_none.
  - rewrite rev_involutive. apply string_of_list_ascii_of_string.
  - destruct (rev l) as [|c r] eqn:Er.
    + apply (f_equal (@rev ascii)) in Er. rewrite rev_involutive in Er. simpl in Er. congruence.
    + apply strip_last_digit.
      assert (Hin : In c l) by (apply in_rev; rewrite Er; left; reflexivity).
      rewrite List.Forall_forall in HF. apply HF. exact Hin.
Qed.

Lemma span_all_digits s : all_digits s = true -> span_digits s = (s, EmptyString).
Proof.
  induction s as [|c r IH]; simpl; [reflexivity|].
  intros [Hc Hr]%andb_prop. rewrite Hc, (IH Hr). reflexivity.
Qed.

Lemma append_empty (s : string) : s +:+ EmptyString = s.
Proof.
  induction s as [|c r IH]; [reflexivity|].
  change (String c (r +:+ EmptyString) = String c r). f_equal. exact IH.
Qed.

Lemma digits_value_pos (p : positive) :
  digits_value (NilEmpty.string_of_uint (Pos.to_uint p)) = N.pos p.
Proof.
  unfold digits_value. rewrite NilEmpty.usu. unfold N.of_uint.
  apply DecimalPos.Unsigned.of_to.
Qed.

Lemma numeric_literal_pos (p : positive) :
  numeric_literal (NilEmpty.string_of_uint (Pos.to_uint p)) = Finite false (N.pos p) 0.
Proof.
  pose proof (string_of_uint_digits (Pos.to_uint p)) as Hd.
  pose proof (digits_value_pos p) as Hv.
  destruct (NilEmpty.string_of_uint (Pos.to_uint p)) as [|c r] eqn:E.
  { exfalso. apply (DecimalPos.Unsigned.to_uint_nonnil p).
    apply (f_equal NilEmpty.uint_of_string) in E.
    rewrite NilEmpty.usu in E. simpl in E. congruence. }
  assert (Hdec : str_decimal false (String c r) = Finite false (N.pos p) 0).
  { unfold str_decimal.
    assert (Hinf : String.eqb (String c r) "Infinity" = false).
    { simpl in Hd. apply andb_prop in Hd as [Hc _].
      destruct c as [[] [] [] [] [] [] [] []]; simpl in Hc; try discriminate; reflexivity. }
    rewrite Hinf. unfold decimal_literal. rewrite (span_all_digits _ Hd).
    rewrite append_empty, Hv. reflexivity. }
  simpl in Hd. apply andb_prop in Hd as [Hc _].
  unfold numeric_literal.
  destruct c as [[] [] [] [] [] [] [] []]; simpl in Hc; try discriminate;
    rewrite Hdec; reflexivity.
Qed.

Lemma ToNumber_pid_text (p : positive) :
  ToNumber (pid_text p) = Finite false (N.pos p) 0.
Proof.
  unfold ToNumber, pid_text.
  assert (Hne : NilEmpty.string_of_uint (Pos.to_uint p) ≠ EmptyString).
  { intros E. apply (DecimalPos.Unsigned.to_uint_nonnil p).
    apply (f_equal NilEmpty.uint_of_string) in E.
    rewrite NilEmpty.usu in E. simpl in E. congruence. }
  rewrite trim_digits_newline by auto using string_of_uint_digits.
  rewrite <- numeric_literal_pos.
  destruct (NilEmpty.string_of_uint (Pos.to_uint p)); [congruence|reflexivity].
Qed.

Lemma valid_pid_text (p : positive) :
  Z.pos p < 2 ^ 31 -> valid_pid (pid_text p) = Some (Z.pos p).
Proof.
  intros Hp. unfold valid_pid. rewrite ToNumber_pid_text.
  unfold nearest_integer. simpl N.eqb. cbv iota.
  change (10 <? 0)%Z with false. change (0 <=? 0)%Z with true. cbv iota.
  change (Z.to_N 0) with 0%N. rewrite N.pow_0_r, N.mul_1_r.
  change (Z.of_N (N.pos p)) with (Z.pos p).
  unfold ToInt32. rewrite Z.mod_small by lia.
  replace (Z.pos p + 2 ^ 31 - 2 ^ 31) with (Z.pos p) by lia.
  rewrite Z.eqb_refl. reflexivity.
Qed.

End JsFacts.

(** ** The callback, outcome by outcome *)

Lemma instances_from_length root dest cell p l :
  length (instances_from root dest cell p l) = length l.
Proof. revert p. induction l; intros p; simpl; auto. Qed.

Lemma instances_from_dest root dest cell p l :
  Forall (fun i => inst_dest i = dest ∧ inst_cell i = cell) (instances_from root dest cell p l).
Proof. revert p. induction l; intros p; simpl; constructor; auto. Qed.

Lemma instances_from_args root dest cell p l :
  map inst_args (instances_from root dest cell p l) = map (haproxy_args root dest) l.
Proof. revert p. induction l; intros p; simpl; f_equal; auto. Qed.



(** The first half when [process.kill] throws: the catch block drops the
    exception, and the two statements after the call are skipped. *)
Lemma check_kill_throws dest cell s content e :
  files s !! dest = Some (Readable content) ->
  fst (process_kill content (emit (EvRead dest) (emit (EvExists dest true) s)))
    = Throw (KillFailed e) ->
  exec (check_and_terminate dest cell) s
  = emit (EvKill content (Some e)) (emit (EvRead dest) (emit (EvExists dest true) s)).
Proof.
  intros Hf Hk.
  unfold exec, check_and_terminate, bind, fs_existsSync.
  rewrite bool_decide_eq_true_2 by eauto.
  unfold try_catch_ignore, bind, fs_readFileSync. simpl. rewrite Hf.
  revert Hk. unfold process_kill. simpl.
  destruct (Js.valid_pid content) as [n|]; [destruct (procs s !! n) as [[|]|]|];
    simpl; intros [= <-]; reflexivity.
Qed.

Lemma filter_callback_kill_throws root dest cell fp s content e :
  files s !! dest = Some (Readable content) ->
  fst (process_kill content (emit (EvRead dest) (emit (EvExists dest true) s)))
    = Throw (KillFailed e) ->
  exec (filter_callback root dest cell fp) s
  = {| files := files s; pinned := pinned s;
       procs := <[Z.pos (next_pid s) := true]> (procs s);
       next_pid := Pos.succ (next_pid s);
       cells := cells s;
       children := children s ++ [new_instance root dest cell fp s];
       trace := trace s ++
         [EvExists dest true; EvRead dest; EvKill content (Some e);
          EvSpawn "haproxy" (haproxy_args root dest fp) (next_pid s)] |}.
Proof.
  intros Hf Hk. rewrite filter_callback_split, (check_kill_throws _ _ _ _ _ Hf Hk).
  rewrite launch_state. simpl. rewrite <- !app_assoc. reflexivity.
Qed.

Lemma filter_callback_absent root dest cell fp s :
  files s !! dest = None ->
  exec (filter_callback root dest cell fp) s
  = {| files := files s; pinned := pinned s;
       procs := <[Z.pos (next_pid s) := true]> (procs s);
       next_pid := Pos.succ (next_pid s);
       cells := cells s;
       children := children s ++ [new_instance root dest cell fp s];
       trace := trace s ++
         [EvExists dest false;
          EvSpawn "haproxy" (haproxy_args root dest fp) (next_pid s)] |}.
Proof.
  intros Hf. rewrite filter_callback_split.
  assert (E : exec (check_and_terminate dest cell) s = emit (EvExists dest false) s).
  { unfold exec, check_and_terminate, bind, fs_existsSync.
    rewrite bool_decide_eq_false_2; [reflexivity|].
    rewrite Hf. intros [x Hx]. discriminate. }
  rewrite E, launch_state. simpl. rewrite <- !app_assoc. reflexivity.
Qed.

Lemma filter_callback_terminated root dest cell fp s content n :
  files s !! dest = Some (Readable content) ->
  Js.valid_pid content = Some n ->
  procs s !! n = Some true ->
  dest ∉ pinned s ->
  exec (filter_callback root dest cell fp) s
  = {| files := delete dest (files s); pinned := pinned s;
       procs := <[Z.pos (next_pid s) := true]> (delete n (procs s));
       next_pid := Pos.succ (next_pid s);
       cells := <[cell := true]> (cells s);
       children := children s ++ [new_instance root dest cell fp s];
       trace := trace s ++
         [EvExists dest true; EvRead dest; EvKill content None; EvUnlink dest true;
          EvSpawn "haproxy" (haproxy_args root dest fp) (next_pid s)] |}.
Proof.
  intros Hf Hv Hp Hpin. rewrite filter_callback_split.
  assert (E : exec (check_and_terminate dest cell) s
    = set_cells (<[cell := true]> (cells s))
        (emit (EvUnlink dest true)
           (set_files (delete dest (files s))
              (emit (EvKill content None)
                 (set_procs (delete n (procs s))
                    (emit (EvRead dest) (emit (EvExists dest true) s))))))).
  { unfold exec, check_and_terminate, bind, fs_existsSync.
    rewrite bool_decide_eq_true_2 by eauto.
    unfold try_catch_ignore, bind, fs_readFileSync, process_kill. simpl.
    rewrite Hf, Hv. simpl. rewrite Hp. unfold fs_unlinkSync. simpl.
    rewrite Hf, bool_decide_eq_true_2 by (split; eauto). reflexivity. }
  rewrite E, launch_state. simpl. rewrite <- !app_assoc. reflexivity.
Qed.

Lemma forEach_body_single root dest fp s :
  exec (forEach_body root {| src := [fp]; dest0 := dest |}) s
  = exec (filter_callback root dest (length (cells s)) fp)
      (set_cells (cells s ++ [false]) s).
Proof.
  rewrite forEach_body_exec. simpl src. simpl dest0.
  rewrite Array_filter_step by apply filter_callback_result. reflexivity.
Qed.

Lemma fresh_cell_unset (c : list bool) : (c ++ [false]) !! length c = Some false.
Proof. rewrite lookup_app_r by lia. rewrite Nat.sub_diag. reflexivity. Qed.

Lemma haproxy_task_single root f s :
  exec (haproxy_task root [f]) s = exec (forEach_body root f) s.
Proof. unfold haproxy_task. rewrite Array_forEach_step. reflexivity. Qed.

Lemma notifications_snoc_task s t (l : list Event) :
  omap (fun e => match e with EvTaskRun t => Some t | _ => None end) l = [t] ->
  omap (fun e => match e with EvTaskRun t => Some t | _ => None end) (trace s ++ l)
  = notifications s ++ [t].
Proof. intros H. rewrite omap_app, H. reflexivity. Qed.

Lemma haproxy_daemonize_live i s :
  is_Some (procs s !! Z.pos (inst_pid i)) ->
  haproxy_daemonize i s
  = set_files (<[inst_dest i := Readable (Js.pid_text (next_pid s))]> (files s))
      (set_procs (<[Z.pos (next_pid s) := true]> (delete (Z.pos (inst_pid i)) (procs s)))
         (set_next_pid (Pos.succ (next_pid s)) s)).
Proof.
  intros H. unfold haproxy_daemonize, live.
  rewrite bool_decide_eq_true_2 by exact H. reflexivity.
Qed.

(** A cycle that finds no PID file: a start is notified, and afterwards the
    PID file holds the id of the running daemon. *)
Lemma cycle_started root dest fp s :
  files s !! dest = None ->
  let s' := cycle root {| src := [fp]; dest0 := dest |} s in
  notifications s' = notifications s ++ ["notify:haproxyStarted"] ∧
  files s' !! dest = Some (Readable (Js.pid_text (Pos.succ (next_pid s)))) ∧
  procs s' !! Z.pos (Pos.succ (next_pid s)) = Some true ∧
  pinned s' = pinned s ∧
  next_pid s' = Pos.succ (Pos.succ (next_pid s)).
Proof.
  intros Hf. cbv zeta. unfold cycle.
  rewrite haproxy_task_single, forEach_body_single.
  rewrite filter_callback_absent by exact Hf.
  unfold settle. simpl children. rewrite last_snoc.
  rewrite haproxy_daemonize_live by (simpl; rewrite lookup_insert_eq; eauto).
  rewrite close_listener_state. simpl.
  rewrite fresh_cell_unset. simpl.
  repeat split.
  - unfold notifications. simpl. rewrite <- app_assoc.
    rewrite omap_app. simpl. reflexivity.
  - apply lookup_insert_eq.
  - apply lookup_insert_eq.
Qed.

(** A cycle that finds the PID file of a process it may signal, and can
    remove the file: a reload is notified. *)
Lemma cycle_reloaded root dest fp s content n :
  files s !! dest = Some (Readable content) ->
  Js.valid_pid content = Some n ->
  procs s !! n = Some true ->
  dest ∉ pinned s ->
  notifications (cycle root {| src := [fp]; dest0 := dest |} s)
  = notifications s ++ ["notify:haproxyReloaded"].
Proof.
  intros Hf Hv Hp Hpin. unfold cycle.
  rewrite haproxy_task_single, forEach_body_single.
  rewrite (filter_callback_terminated root dest (length (cells s)) fp
             (set_cells (cells s ++ [false]) s) content n) by assumption.
  unfold settle. simpl children. rewrite last_snoc.
  rewrite haproxy_daemonize_live by (simpl; rewrite lookup_insert_eq; eauto).
  rewrite close_listener_state. simpl.
  rewrite list_lookup_insert_eq by (rewrite length_app; simpl; lia). simpl.
  unfold notifications. simpl. rewrite <- app_assoc.
  rewrite omap_app. simpl. reflexivity.
Qed.

Lemma filter_callback_unlink_failed root dest cell fp s content n :
  files s !! dest = Some (Readable content) ->
  Js.valid_pid content = Some n ->
  procs s !! n = Some true ->
  dest ∈ pinned s ->
  exec (filter_callback root dest cell fp) s
  = {| files := files s; pinned := pinned s;
       procs := <[Z.pos (next_pid s) := true]> (delete n (procs s));
       next_pid := Pos.succ (next_pid s);
       cells := cells s;
       children := children s ++ [new_instance root dest cell fp s];
       trace := trace s ++
         [EvExists dest true; EvRead dest; EvKill content None; EvUnlink dest false;
          EvSpawn "haproxy" (haproxy_args root dest fp) (next_pid s)] |}.
Proof.
  intros Hf Hv Hp Hpin. rewrite filter_callback_split.
  assert (E : exec (check_and_terminate dest cell) s
    = emit (EvUnlink dest false)
        (emit (EvKill content None)
           (set_procs (delete n (procs s))
              (emit (EvRead dest) (emit (EvExists dest true) s))))).
  { unfold exec, check_and_terminate, bind, fs_existsSync.
    rewrite bool_decide_eq_true_2 by eauto.
    unfold try_catch_ignore, bind, fs_readFileSync, process_kill. simpl.
    rewrite Hf, Hv. simpl. rewrite Hp. unfold fs_unlinkSync. simpl.
    rewrite bool_decide_eq_false_2 by (intros [_ H]; auto). reflexivity. }
  rewrite E, launch_state. simpl. rewrite <- !app_assoc. reflexivity.
Qed.

Lemma filter_callback_unreadable root dest cell fp s :
  files s !! dest = Some Unreadable ->
  exec (filter_callback root dest cell fp) s
  = {| files := files s; pinned := pinned s;
       procs := <[Z.pos (next_pid s) := true]> (procs s);
       next_pid := Pos.succ (next_pid s);
       cells := cells s;
       children := children s ++ [new_instance root dest cell fp s];
       trace := trace s ++
         [EvExists dest true;
          EvSpawn "haproxy" (haproxy_args root dest fp) (next_pid s)] |}.
Proof.
  intros Hf. rewrite filter_callback_split.
  assert (E : exec (check_and_terminate dest cell) s = emit (EvExists dest true) s).
  { unfold exec, check_and_terminate, bind, fs_existsSync.
    rewrite bool_decide_eq_true_2 by eauto.
    unfold try_catch_ignore, bind, fs_readFileSync. simpl. rewrite Hf. reflexivity. }
  rewrite E, launch_state. simpl. rewrite <- !app_assoc. reflexivity.
Qed.

Lemma Array_filter_cells_below root dest cell l s :
  take cell (cells (exec (Array_filter (filter_callback root dest cell) l) s))
  = take cell (cells s).
Proof.
  revert s. induction l as [|fp r IH]; intros s; [reflexivity|].
  rewrite Array_filter_step by apply filter_callback_result.
  rewrite IH, filter_callback_split, launch_state. simpl.
  destruct (check_and_terminate_frame dest cell s) as (_ & _ & _ & _ & [E|E]);
    rewrite E; [reflexivity|]. apply take_insert_ge. lia.
Qed.

Lemma forEach_body_cells root f s :
  let s' := exec (forEach_body root f) s in
  take (length (cells s)) (cells s') = cells s ∧
  length (cells s') = S (length (cells s)).
Proof.
  cbv zeta. split; [|apply forEach_body_effect].
  rewrite forEach_body_exec, Array_filter_cells_below. simpl.
  apply take_app_length.
Qed.

Lemma haproxy_task_cells_below root this_files s :
  take (length (cells s)) (cells (exec (haproxy_task root this_files) s)) = cells s ∧
  (length (cells s) <= length (cells (exec (haproxy_task root this_files) s)))%nat.
Proof.
  unfold haproxy_task. revert s.
  induction this_files as [|f r IH]; intros s.
  - change (exec (Array_forEach (forEach_body root) []) s) with s.
    rewrite firstn_all. split; [reflexivity|lia].
  - rewrite Array_forEach_step.
    destruct (forEach_body_cells root f s) as [Ht Hl].
    destruct (IH (exec (forEach_body root f) s)) as [IHt IHl].
    rewrite Hl in IHt, IHl. split; [|lia].
    transitivity (take (length (cells s))
                    (take (S (length (cells s)))
                       (cells (exec (Array_forEach (forEach_body root) r)
                                 (exec (forEach_body root f) s))))).
    + rewrite take_take. f_equal. lia.
    + rewrite IHt. exact Ht.
Qed.

(** A [_restart] is written by the callbacks of its own group alone: once
    the group has run, nothing changes it. *)
Lemma step_cells_frozen root s s' k :
  step root s s' -> (k < length (cells s))%nat ->
  cells s' !! k = cells s !! k ∧ (k < length (cells s'))%nat.
Proof.
  intros [fs s0|i code s0 Hi|s0 s1 Hc Hch Ht] Hk.
  - destruct (haproxy_task_cells_below root fs s0) as [Ht Hl].
    split; [|lia].
    transitivity (take (length (cells s0)) (cells (exec (haproxy_task root fs) s0)) !! k).
    + rewrite lookup_take_lt by exact Hk. reflexivity.
    + rewrite Ht. reflexivity.
  - rewrite close_listener_state. simpl. auto.
  - rewrite Hc. auto.
Qed.

Lemma steps_cells_frozen root s s' k :
  rtc (step root) s s' -> (k < length (cells s))%nat -> cells s' !! k = cells s !! k.
Proof.
  induction 1 as [|x y z Hxy _ IH]; [reflexivity|].
  intros Hk. destruct (step_cells_frozen root x y k Hxy Hk) as [E Hk'].
  rewrite (IH Hk'). exact E.
Qed.

(** A run of the callback sets [_restart] exactly when its [unlinkSync]
    succeeds, which it is called for only after a delivered signal. *)
Lemma filter_callback_unlinked root dest cell fp s :
  let s' := exec (filter_callback root dest cell fp) s in
  ∃ added, trace s' = trace s ++ added ∧
    ((EvUnlink dest true ∈ added ∧ cells s' = <[cell := true]> (cells s)) ∨
     ((EvUnlink dest true ∉ added) ∧ cells s' = cells s)).
Proof.
  cbv zeta. destruct (files s !! dest) as [[content|]|] eqn:Hf.
  - destruct (Js.valid_pid content) as [n|] eqn:Hv;
      [destruct (procs s !! n) as [[|]|] eqn:Hp|].
    + destruct (decide (dest ∈ pinned s)) as [Hpin|Hpin].
      * rewrite (filter_callback_unlink_failed root dest cell fp s content n) by assumption.
        eexists. split; [reflexivity|]. right. split; [|reflexivity].
        intros H. no_such_event H.
      * rewrite (filter_callback_terminated root dest cell fp s content n) by assumption.
        eexists. split; [reflexivity|]. left. split; [|reflexivity].
        do 3 right. left.
    + rewrite (filter_callback_kill_throws root dest cell fp s content EPERM Hf)
        by (unfold process_kill; simpl; rewrite Hv, Hp; reflexivity).
      eexists. split; [reflexivity|]. right. split; [|reflexivity].
      intros H. no_such_event H.
    + rewrite (filter_callback_kill_throws root dest cell fp s content ESRCH Hf)
        by (unfold process_kill; simpl; rewrite Hv, Hp; reflexivity).
      eexists. split; [reflexivity|]. right. split; [|reflexivity].
      intros H. no_such_event H.
    + rewrite (filter_callback_kill_throws root dest cell fp s content
                 TypeError_invalid_pid Hf)
        by (unfold process_kill; simpl; rewrite Hv; reflexivity).
      eexists. split; [reflexivity|]. right. split; [|reflexivity].
      intros H. no_such_event H.
  - rewrite (filter_callback_unreadable root dest cell fp s Hf).
    eexists. split; [reflexivity|]. right. split; [|reflexivity].
    intros H. no_such_event H.
  - rewrite (filter_callback_absent root dest cell fp s Hf).
    eexists. split; [reflexivity|]. right. split; [|reflexivity].
    intros H. no_such_event H.
Qed.

Lemma Array_filter_unlinked root dest cell l s :
  (cell < length (cells s))%nat ->
  let s' := exec (Array_filter (filter_callback root dest cell) l) s in
  ∃ added, trace s' = trace s ++ added ∧
    ((EvUnlink dest true ∈ added ∧ cells s' !! cell = Some true) ∨
     ((EvUnlink dest true ∉ added) ∧ cells s' = cells s)).
Proof.
  revert s. induction l as [|fp r IH]; intros s Hcell; cbv zeta.
  - exists []. rewrite app_nil_r. split; [reflexivity|]. right.
    split; [apply not_elem_of_nil|reflexivity].
  - rewrite Array_filter_step by apply filter_callback_result.
    destruct (filter_callback_unlinked root dest cell fp s) as (a1 & E1 & H1).
    destruct (filter_callback_effect root dest cell fp s) as (_ & _ & _ & _ & Hl & _).
    destruct (IH (exec (filter_callback root dest cell fp) s)) as (a2 & E2 & H2);
      [rewrite Hl; exact Hcell|].
    exists (a1 ++ a2). rewrite E2, E1, <- app_assoc. split; [reflexivity|].
    destruct H1 as [[Hin Hc]|[Hnin Hc]].
    + left. split; [apply elem_of_app; left; exact Hin|].
      apply Array_filter_children. rewrite Hc.
      apply list_lookup_insert_eq. exact Hcell.
    + destruct H2 as [[Hin2 Hc2]|[Hnin2 Hc2]].
      * left. split; [apply elem_of_app; right; exact Hin2|exact Hc2].
      * right. split; [|rewrite Hc2; exact Hc].
        intros [H|H]%elem_of_app; auto.
Qed.

Lemma forEach_body_unlinked root f s :
  let s1 := exec (forEach_body root f) s in
  let added := drop (length (trace s)) (trace s1) in
  (EvUnlink (dest0 f) true ∈ added ∧ cells s1 !! length (cells s) = Some true) ∨
  ((EvUnlink (dest0 f) true ∉ added) ∧ cells s1 !! length (cells s) = Some false).
Proof.
  cbv zeta. rewrite forEach_body_exec.
  destruct (Array_filter_unlinked root (dest0 f) (length (cells s)) (src f)
              (set_cells (cells s ++ [false]) s)) as (added & E & H).
  { simpl. rewrite length_app. simpl. lia. }
  rewrite E. simpl. rewrite drop_app_length.
  destruct H as [[Hin Hc]|[Hnin Hc]]; [left; auto|right].
  split; [exact Hnin|]. rewrite Hc. simpl. apply fresh_cell_unset.
Qed.

Lemma cycle_started_effects root dest fp s :
  files s !! dest = None ->
  let s' := cycle root {| src := [fp]; dest0 := dest |} s in
  spawns s' = spawns s ++ [(haproxy_args root dest fp, next_pid s)] ∧
  kills s' = kills s.
Proof.
  intros Hf. cbv zeta. unfold cycle.
  rewrite haproxy_task_single, forEach_body_single.
  rewrite filter_callback_absent by exact Hf.
  unfold settle. simpl children. rewrite last_snoc.
  rewrite haproxy_daemonize_live by (simpl; rewrite lookup_insert_eq; eauto).
  rewrite close_listener_state. unfold spawns, kills. simpl.
  rewrite <- !app_assoc, !omap_app. simpl.
  rewrite ?app_nil_r. split; reflexivity.
Qed.

Lemma cycle_reloaded_effects root dest fp s content n :
  files s !! dest = Some (Readable content) ->
  Js.valid_pid content = Some n ->
  procs s !! n = Some true ->
  dest ∉ pinned s ->
  let s' := cycle root {| src := [fp]; dest0 := dest |} s in
  spawns s' = spawns s ++ [(haproxy_args root dest fp, next_pid s)] ∧
  kills s' = kills s ++ [content].
Proof.
  intros Hf Hv Hp Hpin. cbv zeta. unfold cycle.
  rewrite haproxy_task_single, forEach_body_single.
  rewrite (filter_callback_terminated root dest (length (cells s)) fp
             (set_cells (cells s ++ [false]) s) content n) by assumption.
  unfold settle. simpl children. rewrite last_snoc.
  rewrite haproxy_daemonize_live by (simpl; rewrite lookup_insert_eq; eauto).
  rewrite close_listener_state. unfold spawns, kills. simpl.
  rewrite <- !app_assoc, !omap_app. simpl.
  rewrite ?app_nil_r. split; reflexivity.
Qed.

(** ** The claims *)



(** C2, as the code has it: the callback never looks at the configuration
    file.  Whatever the file system holds at the resolved path, it issues the
    one spawn with that path, hands nothing to [grunt.task.run] itself, and
    the ['close'] event of the child, with any exit code, runs
    [notify:haproxyStarted] or [notify:haproxyReloaded]. *)
Theorem C2_spawn_without_config_check root dest cell fp s :
  let s' := exec (filter_callback root dest cell fp) s in
  spawns s' = spawns s ++ [(["-f "; path_resolve root fp; "-p "; dest; "-D"], next_pid s)] ∧
  notifications s' = notifications s ∧
  ∀ code, ∃ _restart,
    notifications (exec (close_listener (new_instance root dest cell fp s) code) s')
    = notifications s ++ [if _restart : bool then "notify:haproxyReloaded"
                          else "notify:haproxyStarted"].
Proof.
  cbv zeta.
  destruct (filter_callback_effect root dest cell fp s) as (_ & _ & Hs & Hn & _).
  repeat split; auto.
  intros code. eexists. rewrite close_listener_notifications, Hn. reflexivity.
Qed.

(** C2 fails as stated: the configuration path that is resolved and handed
    to haproxy names no file, the process is spawned all the same, and when
    it exits with code 1 the notification is the one for a start. *)
Lemma C2_missing_config_is_spawned :
  let s' := exec (haproxy_task plugin_root [wamp]) project in
  let i := new_instance plugin_root pid_file 0 "test/fixtures/haproxy-wamp.cfg" project in
  path_resolve plugin_root "test/fixtures/haproxy-wamp.cfg"
    = "/opt/grunt-haproxy/test/fixtures/haproxy-wamp.cfg" ∧
  files project !! "/opt/grunt-haproxy/test/fixtures/haproxy-wamp.cfg" = None ∧
  spawns s' = [(["-f "; "/opt/grunt-haproxy/test/fixtures/haproxy-wamp.cfg";
                 "-p "; pid_file; "-D"], 100%positive)] ∧
  live s' 100 = true ∧
  notifications (exec (close_listener i (Some 1)) s') = ["notify:haproxyStarted"].
Proof. vm_compute. repeat split; reflexivity. Qed.

(** C3, as the code has it: when the PID file names an id that no process
    has, the exception of [process.kill] is dropped and the spawn follows;
    the PID file stays where it is and [_restart] is not assigned. *)
Theorem C3_dead_pid_swallowed root dest cell fp s content n :
  files s !! dest = Some (Readable content) ->
  Js.valid_pid content = Some n ->
  procs s !! n = None ->
  let s' := exec (filter_callback root dest cell fp) s in
  files s' = files s ∧
  cells s' = cells s ∧
  trace s' = trace s ++
    [EvExists dest true; EvRead dest; EvKill content (Some ESRCH);
     EvSpawn "haproxy" (haproxy_args root dest fp) (next_pid s)].
Proof.
  intros Hf Hv Hp. cbv zeta.
  rewrite (filter_callback_kill_throws root dest cell fp s content ESRCH Hf).
  - auto.
  - unfold process_kill. simpl. rewrite Hv, Hp. reflexivity.
Qed.

Lemma C3_dead_pid_swallowed_witness :
  let s := with_pid_file (Js.pid_text 4242) ∅ in
  let s' := exec (filter_callback plugin_root pid_file 0 "test/fixtures/haproxy-wamp.cfg") s in
  files s' = files s ∧
  cells s' = cells s ∧
  trace s' = trace s ++
    [EvExists pid_file true; EvRead pid_file; EvKill (Js.pid_text 4242) (Some ESRCH);
     EvSpawn "haproxy" (haproxy_args plugin_root pid_file "test/fixtures/haproxy-wamp.cfg")
       (next_pid s)].
Proof.
  apply (C3_dead_pid_swallowed plugin_root pid_file 0 "test/fixtures/haproxy-wamp.cfg"
           (with_pid_file (Js.pid_text 4242) ∅) (Js.pid_text 4242) 4242).
  - vm_compute. reflexivity.
  - vm_compute. reflexivity.
  - vm_compute. reflexivity.
Defined.

(** C3 fails as stated: the PID file names process 4242, which does not
    run; after the cycle the file is still there and [_restart] is unset, so
    the ['close'] event reports a start. *)
Lemma C3_stale_pid_file_is_kept :
  let s' := exec (haproxy_task plugin_root [wamp]) (with_pid_file (Js.pid_text 4242) ∅) in
  files s' !! pid_file = Some (Readable (Js.pid_text 4242)) ∧
  cells s' = [false] ∧
  notifications (exec (close_listener (new_instance plugin_root pid_file 0
                   "test/fixtures/haproxy-wamp.cfg" boot) (Some 0)) s')
  = ["notify:haproxyStarted"].
Proof. vm_compute. repeat split; reflexivity. Qed.

(** C4, as the code has it: when the signal may not be delivered, the
    exception is dropped like any other.  The PID file is left untouched and
    the prior process keeps running, but the cycle does not abort: the
    replacement is spawned, nothing is handed to [grunt.task.run] by the
    callback, and the ['close'] event runs the notification that
    [_restart] selects. *)
Theorem C4_permission_error_swallowed root dest cell fp s content n :
  files s !! dest = Some (Readable content) ->
  Js.valid_pid content = Some n ->
  procs s !! n = Some false ->
  let s' := exec (filter_callback root dest cell fp) s in
  files s' = files s ∧
  procs s' = <[Z.pos (next_pid s) := true]> (procs s) ∧
  cells s' = cells s ∧
  trace s' = trace s ++
    [EvExists dest true; EvRead dest; EvKill content (Some EPERM);
     EvSpawn "haproxy" (haproxy_args root dest fp) (next_pid s)] ∧
  ∀ code,
    notifications (exec (close_listener (new_instance root dest cell fp s) code) s')
    = notifications s ++ [notify_task (default false (cells s !! cell))].
Proof.
  intros Hf Hv Hp. cbv zeta.
  assert (Hk : fst (process_kill content (emit (EvRead dest) (emit (EvExists dest true) s)))
               = Throw (KillFailed EPERM)).
  { unfold process_kill. simpl. rewrite Hv, Hp. reflexivity. }
  pose proof (filter_callback_effect root dest cell fp s) as (_ & _ & _ & Hn & _).
  repeat split;
    try (rewrite (filter_callback_kill_throws root dest cell fp s content EPERM Hf Hk);
         reflexivity).
  intros code. rewrite close_listener_notifications, Hn.
  rewrite (filter_callback_kill_throws root dest cell fp s content EPERM Hf Hk).
  reflexivity.
Qed.

Lemma C4_permission_error_swallowed_witness :
  let s := with_pid_file (Js.pid_text 1) {[ 1 := false ]} in
  let s' := exec (filter_callback plugin_root pid_file 0 "test/fixtures/haproxy-wamp.cfg") s in
  files s' = files s ∧
  procs s' = <[Z.pos (next_pid s) := true]> (procs s) ∧
  cells s' = cells s ∧
  trace s' = trace s ++
    [EvExists pid_file true; EvRead pid_file; EvKill (Js.pid_text 1) (Some EPERM);
     EvSpawn "haproxy" (haproxy_args plugin_root pid_file "test/fixtures/haproxy-wamp.cfg")
       (next_pid s)] ∧
  ∀ code,
    notifications (exec (close_listener (new_instance plugin_root pid_file 0
                     "test/fixtures/haproxy-wamp.cfg" s) code) s')
    = notifications s ++ [notify_task (default false (cells s !! 0%nat))].
Proof.
  apply (C4_permission_error_swallowed plugin_root pid_file 0 "test/fixtures/haproxy-wamp.cfg"
           (with_pid_file (Js.pid_text 1) {[ 1 := false ]}) (Js.pid_text 1) 1).
  - vm_compute. reflexivity.
  - vm_compute. reflexivity.
  - vm_compute. reflexivity.
Defined.

(** C4 fails as stated: the PID file names process 1, which the caller may
    not signal; the replacement is spawned all the same and its ['close']
    event reports a start, not a failure. *)
Lemma C4_replacement_spawned_after_eperm :
  let s := with_pid_file (Js.pid_text 1) {[ 1 := false ]} in
  let s' := exec (haproxy_task plugin_root [wamp]) s in
  spawns s = [] ∧
  spawns s' = [(haproxy_args plugin_root pid_file "test/fixtures/haproxy-wamp.cfg", 100%positive)] ∧
  notifications s' = [] ∧
  notifications (exec (close_listener (new_instance plugin_root pid_file 0
                   "test/fixtures/haproxy-wamp.cfg" boot) (Some 0)) s')
  = ["notify:haproxyStarted"].
Proof. vm_compute. repeat split; reflexivity. Qed.

(** C5, as the code has it: the synchronous part of the task hands nothing
    to [grunt.task.run]; every ['close'] event of a child hands over exactly
    one notification, [notify:haproxyReloaded] or [notify:haproxyStarted] as
    [_restart] says, whatever the exit code is; an exit code other than 0 is
    written to the console and nowhere else. *)
Theorem C5_one_notification_per_close_event :
  (∀ root this_files s,
     notifications (exec (haproxy_task root this_files) s) = notifications s) ∧
  (∀ i code s,
     notifications (exec (close_listener i code) s)
     = notifications s ++
       [if default false (cells s !! inst_cell i)
        then "notify:haproxyReloaded" else "notify:haproxyStarted"]) ∧
  (∀ i code s,
     trace (exec (close_listener i code) s)
     = trace s ++
       [EvConsoleStarted (inst_pid i) (inst_dest i) code;
        EvTaskRun (if default false (cells s !! inst_cell i)
                   then "notify:haproxyReloaded" else "notify:haproxyStarted");
        EvDone] ++
       (if bool_decide (code = Some 0) then [] else [EvConsoleExited code])).
Proof.
  repeat split.
  - intros root this_files s. apply haproxy_task_effect.
  - intros i code s. apply close_listener_notifications.
  - intros i code s. rewrite close_listener_state. reflexivity.
Qed.

(** C5 fails as stated: the child of a first start exits with code 1; the
    one notification of the cycle is the one for a start, the exit code
    goes to the console, and no failure is notified. *)
Lemma C5_exit_code_1_notified_as_started :
  let s' := exec (haproxy_task plugin_root [wamp]) boot in
  let i := new_instance plugin_root pid_file 0 "test/fixtures/haproxy-wamp.cfg" boot in
  children s' = [i] ∧
  notifications (exec (close_listener i (Some 1)) s') = ["notify:haproxyStarted"] ∧
  ("notify:haproxyFailed" ∉ notifications (exec (close_listener i (Some 1)) s')) ∧
  last (trace (exec (close_listener i (Some 1)) s')) = Some (EvConsoleExited (Some 1)).
Proof.
  vm_compute. repeat split; try reflexivity.
  intros H. apply list_elem_of_In in H. destruct H as [H|[]]. discriminate.
Qed.

(** C6, as the code has it: a PID file whose content [process.kill] refuses
    as a process id (text that is no numeric literal, such as "abc", or
    whose value is no 32-bit integer) changes nothing in the cycle of a
    target.  The variable [_restart] stays unset, the spawn is issued, the
    ['close'] event reports a start, and the children, the [_restart]
    variables, the process table and the spawns are the same as after the
    cycle run without the file. *)
Theorem C6_refused_pid_content_as_absent root dest fp content s :
  files s !! dest = Some (Readable content) ->
  Js.valid_pid content = None ->
  let f := {| src := [fp]; dest0 := dest |} in
  let s' := exec (forEach_body root f) s in
  let absent := exec (forEach_body root f) (set_files (delete dest (files s)) s) in
  let i := new_instance root dest (length (cells s)) fp s in
  (cells s' = cells absent ∧ children s' = children absent ∧
   procs s' = procs absent ∧ spawns s' = spawns absent) ∧
  cells s' !! inst_cell i = Some false ∧
  children s' = children s ++ [i] ∧
  spawns s' = spawns s ++ [(haproxy_args root dest fp, next_pid s)] ∧
  ∀ code,
    notifications (exec (close_listener i code) s')
    = notifications s ++ ["notify:haproxyStarted"].
Proof.
  intros Hf Hv. cbv zeta. rewrite !forEach_body_single.
  rewrite (filter_callback_kill_throws root dest (length (cells s)) fp
             (set_cells (cells s ++ [false]) s) content TypeError_invalid_pid);
    [|exact Hf|unfold process_kill; simpl; rewrite Hv; reflexivity].
  rewrite filter_callback_absent by (simpl; apply lookup_delete_eq).
  simpl. unfold spawns. simpl. rewrite !omap_app. simpl.
  repeat split; try apply fresh_cell_unset.
  intros code. rewrite close_listener_notifications. simpl.
  rewrite fresh_cell_unset. unfold notifications. simpl.
  rewrite omap_app. simpl. rewrite app_nil_r. reflexivity.
Qed.

Lemma C6_refused_pid_content_as_absent_witness :
  let s := with_pid_file "abc" ∅ in
  let f := {| src := ["test/fixtures/haproxy-wamp.cfg"]; dest0 := pid_file |} in
  let s' := exec (forEach_body plugin_root f) s in
  let absent := exec (forEach_body plugin_root f) (set_files (delete pid_file (files s)) s) in
  let i := new_instance plugin_root pid_file (length (cells s)) "test/fixtures/haproxy-wamp.cfg" s in
  (cells s' = cells absent ∧ children s' = children absent ∧
   procs s' = procs absent ∧ spawns s' = spawns absent) ∧
  cells s' !! inst_cell i = Some false ∧
  children s' = children s ++ [i] ∧
  spawns s' = spawns s ++
    [(haproxy_args plugin_root pid_file "test/fixtures/haproxy-wamp.cfg", next_pid s)] ∧
  ∀ code,
    notifications (exec (close_listener i code) s')
    = notifications s ++ ["notify:haproxyStarted"].
Proof.
  apply (C6_refused_pid_content_as_absent plugin_root pid_file "test/fixtures/haproxy-wamp.cfg"
           "abc" (with_pid_file "abc" ∅)).
  - vm_compute. reflexivity.
  - vm_compute. reflexivity.
Defined.

(** C6 fails as stated: the text is handed to [process.kill] as it is, and
    text that is no positive decimal integer can still be an id to it.  A
    PID file with the hexadecimal text 0x7d4c names process 32076, and one
    with the text -32156 names the process group 32156: the signal is
    delivered, the file is removed and [_restart] is set, so the ['close']
    event reports a reload, where the cycle without the file reports a
    start. *)
Lemma C6_other_numeric_text_is_signalled :
  let nl := String (ascii_of_nat 10) EmptyString in
  let i := new_instance plugin_root pid_file 0 "test/fixtures/haproxy-wamp.cfg" boot in
  let hex := exec (haproxy_task plugin_root [wamp])
               (with_pid_file ("0x7d4c" +:+ nl) {[ 32076 := true ]}) in
  let negative := exec (haproxy_task plugin_root [wamp])
                    (with_pid_file ("-32156" +:+ nl) {[ -32156 := true ]}) in
  let absent := exec (haproxy_task plugin_root [wamp]) boot in
  (Js.valid_pid ("0x7d4c" +:+ nl) = Some 32076 ∧
   kills hex = ["0x7d4c" +:+ nl] ∧
   procs hex !! 32076 = None ∧
   files hex !! pid_file = None ∧
   cells hex = [true] ∧
   notifications (exec (close_listener i (Some 0)) hex) = ["notify:haproxyReloaded"]) ∧
  (Js.valid_pid ("-32156" +:+ nl) = Some (-32156) ∧
   kills negative = ["-32156" +:+ nl] ∧
   files negative !! pid_file = None ∧
   cells negative = [true] ∧
   notifications (exec (close_listener i (Some 0)) negative) = ["notify:haproxyReloaded"]) ∧
  cells absent = [false] ∧
  notifications (exec (close_listener i (Some 0)) absent) = ["notify:haproxyStarted"].
Proof. vm_compute. repeat split; reflexivity. Qed.

(** C7, as the code has it: two cycles in a row on one target with a single
    source, from a state with no PID file and with nothing else touching
    files or processes, where after each spawn haproxy goes to the
    background and writes the id of its daemon to the PID file, the file can
    be removed again and ids stay below 2^31: the first cycle spawns and
    notifies a start, the second signals the daemon of the first, spawns
    again and notifies a reload. *)
Theorem C7_started_then_reloaded root dest fp s :
  files s !! dest = None ->
  dest ∉ pinned s ->
  Z.pos (Pos.succ (next_pid s)) < 2 ^ 31 ->
  let f := {| src := [fp]; dest0 := dest |} in
  let s1 := cycle root f s in
  let s2 := cycle root f s1 in
  notifications s1 = notifications s ++ ["notify:haproxyStarted"] ∧
  notifications s2
  = notifications s ++ ["notify:haproxyStarted"; "notify:haproxyReloaded"] ∧
  spawns s2
  = spawns s ++ [(["-f "; path_resolve root fp; "-p "; dest; "-D"], next_pid s);
                 (["-f "; path_resolve root fp; "-p "; dest; "-D"],
                  Pos.succ (Pos.succ (next_pid s)))] ∧
  kills s2 = kills s ++ [Js.pid_text (Pos.succ (next_pid s))].
Proof.
  intros Hf Hpin Hlt. cbv zeta.
  destruct (cycle_started root dest fp s Hf) as (Hn & Hf' & Hp' & Hpin' & Hnext).
  destruct (cycle_started_effects root dest fp s Hf) as (Hs & Hk).
  assert (Hpin1 : dest ∉ pinned (cycle root {| src := [fp]; dest0 := dest |} s))
    by (rewrite Hpin'; exact Hpin).
  pose proof (JsFacts.valid_pid_text _ Hlt) as Hv.
  destruct (cycle_reloaded_effects root dest fp _ _ _ Hf' Hv Hp' Hpin1) as (Hs2 & Hk2).
  rewrite (cycle_reloaded root dest fp _ _ _ Hf' Hv Hp' Hpin1).
  rewrite Hs2, Hk2, Hn, Hs, Hk, Hnext, <- !app_assoc.
  repeat split.
Qed.

Lemma C7_started_then_reloaded_witness :
  let f := {| src := ["test/fixtures/haproxy-wamp.cfg"]; dest0 := pid_file |} in
  let s1 := cycle plugin_root f boot in
  let s2 := cycle plugin_root f s1 in
  notifications s1 = notifications boot ++ ["notify:haproxyStarted"] ∧
  notifications s2
  = notifications boot ++ ["notify:haproxyStarted"; "notify:haproxyReloaded"] ∧
  spawns s2
  = spawns boot ++
    [(["-f "; path_resolve plugin_root "test/fixtures/haproxy-wamp.cfg"; "-p "; pid_file; "-D"],
      next_pid boot);
     (["-f "; path_resolve plugin_root "test/fixtures/haproxy-wamp.cfg"; "-p "; pid_file; "-D"],
      Pos.succ (Pos.succ (next_pid boot)))] ∧
  kills s2 = kills boot ++ [Js.pid_text (Pos.succ (next_pid boot))].
Proof.
  apply (C7_started_then_reloaded plugin_root pid_file "test/fixtures/haproxy-wamp.cfg" boot).
  - vm_compute. reflexivity.
  - vm_compute. discriminate.
  - vm_compute. reflexivity.
Defined.

(** C7 fails as stated: two cycles in a row can both notify a start, with
    nothing touching files or processes in between.  When haproxy exits
    with code 1 without writing a PID file (its configuration is missing at
    the resolved path), the second cycle finds no PID file either.  And when
    the daemon's PID file cannot be removed, the second cycle signals the
    daemon, fails at [unlinkSync] and leaves [_restart] unset. *)
Lemma C7_started_twice_in_a_row :
  let cfg := "test/fixtures/haproxy-wamp.cfg" in
  let s1 := exec (haproxy_task plugin_root [wamp]) project in
  let s2 := exec (close_listener (new_instance plugin_root pid_file 0 cfg project) (Some 1)) s1 in
  let s3 := exec (haproxy_task plugin_root [wamp]) s2 in
  let s4 := exec (close_listener (new_instance plugin_root pid_file 1 cfg s2) (Some 1)) s3 in
  let fixed := {| files := ∅; pinned := {[ pid_file ]}; procs := ∅;
                  next_pid := 100%positive; cells := []; children := [];
                  trace := [] |} in
  (files s2 !! pid_file = None ∧
   children s3 = [new_instance plugin_root pid_file 0 cfg project;
                  new_instance plugin_root pid_file 1 cfg s2] ∧
   notifications s4 = ["notify:haproxyStarted"; "notify:haproxyStarted"]) ∧
  notifications (cycle plugin_root wamp (cycle plugin_root wamp fixed))
  = ["notify:haproxyStarted"; "notify:haproxyStarted"].
Proof. vm_compute. repeat split; reflexivity. Qed.

(** C8, as the code has it: every entry of [f.src] is used; the spawns of one
    run of the task body are, in order, one per entry, each with its own
    resolved path after [-f] and all with [f.dest[0]] after [-p]. *)
Theorem C8_one_spawn_per_src_entry root f s :
  let s' := exec (forEach_body root f) s in
  map fst (drop (length (spawns s)) (spawns s'))
  = map (fun filepath => ["-f "; path_resolve root filepath; "-p "; dest0 f; "-D"]) (src f).
Proof.
  cbv zeta. destruct (forEach_body_effect root f s) as (_ & Hs & _).
  rewrite Hs, drop_app_length, map_map. simpl.
  apply (instances_from_args root (dest0 f) (length (cells s)) (next_pid s) (src f)).
Qed.

(** C8 fails as stated: with two sources for one destination there are two
    spawns, and the second one runs on the second path. *)
Lemma C8_second_source_is_spawned_too :
  spawns (exec (haproxy_task plugin_root [two_sources]) boot)
  = [ (["-f "; "/opt/grunt-haproxy/etc/a.cfg"; "-p "; pid_file; "-D"], 100%positive);
      (["-f "; "/opt/grunt-haproxy/etc/b.cfg"; "-p "; pid_file; "-D"], 101%positive) ] ∧
  length (spawns (exec (haproxy_task plugin_root [two_sources]) boot)) ≠ 1%nat.
Proof. split; [vm_compute; reflexivity | vm_compute; lia]. Qed.

(** C9, as the code has it: in every run of the callback the calls of the
    check and of the termination have returned before the spawn is issued,
    which is the last effect of the run.  With no PID file, or one that
    cannot be read, that is the check alone; with a readable one the file is
    read and [process.kill] is called on its text, and after a delivered
    signal [unlinkSync] is called.  The spawn waits for nothing more: when
    [process.kill] throws, the process table is as it was, so a prior
    process that could not be signalled still runs when its replacement is
    spawned. *)
Theorem C9_termination_calls_precede_spawn root dest cell fp s :
  let s' := exec (filter_callback root dest cell fp) s in
  ∃ before,
    trace s' = trace s ++ before ++
      [EvSpawn "haproxy" (haproxy_args root dest fp) (next_pid s)] ∧
    forallb is_check_event before = true ∧
    match files s !! dest with
    | None => before = [EvExists dest false]
    | Some Unreadable => before = [EvExists dest true]
    | Some (Readable content) =>
        match Js.valid_pid content with
        | None =>
            before = [EvExists dest true; EvRead dest;
                      EvKill content (Some TypeError_invalid_pid)] ∧
            procs s' = <[Z.pos (next_pid s) := true]> (procs s)
        | Some n =>
            match procs s !! n with
            | None =>
                before = [EvExists dest true; EvRead dest; EvKill content (Some ESRCH)] ∧
                procs s' = <[Z.pos (next_pid s) := true]> (procs s)
            | Some false =>
                before = [EvExists dest true; EvRead dest; EvKill content (Some EPERM)] ∧
                procs s' = <[Z.pos (next_pid s) := true]> (procs s)
            | Some true =>
                before = [EvExists dest true; EvRead dest; EvKill content None;
                          EvUnlink dest (bool_decide (dest ∉ pinned s))]
            end
        end
    end.
Proof.
  cbv zeta. destruct (files s !! dest) as [[content|]|] eqn:Hf.
  - destruct (Js.valid_pid content) as [n|] eqn:Hv;
      [destruct (procs s !! n) as [[|]|] eqn:Hp|].
    + destruct (decide (dest ∈ pinned s)) as [Hpin|Hpin].
      * rewrite (filter_callback_unlink_failed root dest cell fp s content n) by assumption.
        rewrite bool_decide_eq_false_2 by auto.
        exists [EvExists dest true; EvRead dest; EvKill content None; EvUnlink dest false].
        repeat split; reflexivity.
      * rewrite (filter_callback_terminated root dest cell fp s content n) by assumption.
        rewrite bool_decide_eq_true_2 by auto.
        exists [EvExists dest true; EvRead dest; EvKill content None; EvUnlink dest true].
        repeat split; reflexivity.
    + rewrite (filter_callback_kill_throws root dest cell fp s content EPERM Hf)
        by (unfold process_kill; simpl; rewrite Hv, Hp; reflexivity).
      exists [EvExists dest true; EvRead dest; EvKill content (Some EPERM)].
      repeat split; reflexivity.
    + rewrite (filter_callback_kill_throws root dest cell fp s content ESRCH Hf)
        by (unfold process_kill; simpl; rewrite Hv, Hp; reflexivity).
      exists [EvExists dest true; EvRead dest; EvKill content (Some ESRCH)].
      repeat split; reflexivity.
    + rewrite (filter_callback_kill_throws root dest cell fp s content
                 TypeError_invalid_pid Hf)
        by (unfold process_kill; simpl; rewrite Hv; reflexivity).
      exists [EvExists dest true; EvRead dest; EvKill content (Some TypeError_invalid_pid)].
      repeat split; reflexivity.
  - rewrite (filter_callback_unreadable root dest cell fp s Hf).
    exists [EvExists dest true]. repeat split; reflexivity.
  - rewrite (filter_callback_absent root dest cell fp s Hf).
    exists [EvExists dest false]. repeat split; reflexivity.
Qed.

(** C9 fails as stated: the PID file names process 1, which the caller may
    not signal.  [process.kill] throws EPERM, the exception is dropped and
    the spawn is issued while process 1 still runs: the termination of the
    prior process has not completed, and never will by this cycle, when its
    replacement is spawned. *)
Lemma C9_prior_process_alive_at_spawn :
  let s := with_pid_file (Js.pid_text 1) {[ 1 := false ]} in
  let s' := exec (filter_callback plugin_root pid_file 0 "test/fixtures/haproxy-wamp.cfg") s in
  trace s' = [EvExists pid_file true; EvRead pid_file;
              EvKill (Js.pid_text 1) (Some EPERM);
              EvSpawn "haproxy" (haproxy_args plugin_root pid_file
                                   "test/fixtures/haproxy-wamp.cfg") 100] ∧
  kills s' = [] ∧
  live s' 1 = true ∧
  live s' 100 = true ∧
  live_bound s' pid_file
  = [new_instance plugin_root pid_file 0 "test/fixtures/haproxy-wamp.cfg" s].
Proof. vm_compute. repeat split; reflexivity. Qed.

(** C10, as the code has it: the children of one run of the forEach body
    all see the one [_restart] of that run, and the notification of a
    ['close'] event is chosen by the value [_restart] has when the event
    fires.  The variable is set by a termination that succeeds in full, the
    signal delivered and the PID file removed: once an entry of the group
    got that far, every later ['close'] event of the group notifies a
    reload; when no entry did, every one notifies a start. *)
Theorem C10_shared_restart_read_at_close root f s s2 i code :
  let s1 := exec (forEach_body root f) s in
  let _restart := length (cells s) in
  i ∈ drop (length (children s)) (children s1) ->
  rtc (step root) s1 s2 ->
  inst_cell i = _restart ∧
  notifications (exec (close_listener i code) s2)
  = notifications s2 ++
    [if default false (cells s2 !! _restart)
     then "notify:haproxyReloaded" else "notify:haproxyStarted"] ∧
  (EvUnlink (dest0 f) true ∈ drop (length (trace s)) (trace s1) ->
   notifications (exec (close_listener i code) s2)
   = notifications s2 ++ ["notify:haproxyReloaded"]) ∧
  (EvUnlink (dest0 f) true ∉ drop (length (trace s)) (trace s1) ->
   notifications (exec (close_listener i code) s2)
   = notifications s2 ++ ["notify:haproxyStarted"]).
Proof.
  cbv zeta. intros Hi Hsteps.
  destruct (forEach_body_effect root f s) as (Hc & _ & _ & Hlen & _).
  rewrite Hc, drop_app_length in Hi.
  pose proof (instances_from_dest root (dest0 f) (length (cells s)) (next_pid s) (src f)) as HF.
  rewrite Forall_forall in HF. destruct (HF i Hi) as [_ Hcell].
  rewrite close_listener_notifications, Hcell.
  rewrite (steps_cells_frozen root _ _ (length (cells s)) Hsteps) by lia.
  repeat split.
  - intros Hin. destruct (forEach_body_unlinked root f s) as [[_ E]|[Hnin _]];
      [rewrite E; reflexivity|contradiction].
  - intros Hnin. destruct (forEach_body_unlinked root f s) as [[Hin _]|[_ E]];
      [contradiction|rewrite E; reflexivity].
Qed.

Lemma C10_shared_restart_read_at_close_witness :
  let s := with_pid_file (Js.pid_text 7) {[ 7 := true ]} in
  let s1 := exec (forEach_body plugin_root two_sources) s in
  let first := new_instance plugin_root pid_file 0 "etc/a.cfg" s in
  let second := new_instance plugin_root pid_file 0 "etc/b.cfg"
                  (set_next_pid 101 s) in
  let s2 := exec (close_listener first (Some 0)) s1 in
  inst_cell second = 0%nat ∧
  notifications (exec (close_listener second (Some 0)) s2)
  = notifications s2 ++
    [if default false (cells s2 !! 0%nat)
     then "notify:haproxyReloaded" else "notify:haproxyStarted"] ∧
  (EvUnlink (dest0 two_sources) true ∈ drop (length (trace s)) (trace s1) ->
   notifications (exec (close_listener second (Some 0)) s2)
   = notifications s2 ++ ["notify:haproxyReloaded"]) ∧
  (EvUnlink (dest0 two_sources) true ∉ drop (length (trace s)) (trace s1) ->
   notifications (exec (close_listener second (Some 0)) s2)
   = notifications s2 ++ ["notify:haproxyStarted"]).
Proof.
  apply (C10_shared_restart_read_at_close plugin_root two_sources
           (with_pid_file (Js.pid_text 7) {[ 7 := true ]})).
  - vm_compute. right. left.
  - eapply rtc_l; [|apply rtc_refl]. apply step_close. vm_compute. left.
Defined.

(** C10 fails as stated: the PID file names the running process 7 and
    cannot be removed.  The first entry ends the process, but [unlinkSync]
    throws before [_restart] is assigned, and the second entry finds the
    process gone: the prior instance was terminated, and the ['close']
    events of both children of the group notify a start. *)
Lemma C10_terminated_but_started :
  let s := {| files := {[ pid_file := Readable (Js.pid_text 7) ]};
              pinned := {[ pid_file ]}; procs := {[ 7 := true ]};
              next_pid := 100%positive; cells := []; children := [];
              trace := [] |} in
  let s1 := exec (forEach_body plugin_root two_sources) s in
  let first := new_instance plugin_root pid_file 0 "etc/a.cfg" s in
  let second := new_instance plugin_root pid_file 0 "etc/b.cfg" (set_next_pid 101 s) in
  children s1 = [first; second] ∧
  kills s1 = [Js.pid_text 7] ∧
  procs s1 !! 7 = None ∧
  cells s1 = [false] ∧
  notifications (exec (close_listener second (Some 0))
                   (exec (close_listener first (Some 0)) s1))
  = ["notify:haproxyStarted"; "notify:haproxyStarted"].
Proof. vm_compute. repeat split; reflexivity. Qed.

(** The value at launch is not what counts.  The PID file names id 100,
    which no process has; the first child is launched with [_restart] unset
    and gets that very id, so the second run of the callback kills it and
    sets [_restart]: the ['close'] event of the first child notifies a
    reload. *)
Example restart_unset_at_launch_set_at_close :
  let s := with_pid_file (Js.pid_text 100) ∅ in
  let first := new_instance plugin_root pid_file 0 "etc/a.cfg" s in
  cells (exec (filter_callback plugin_root pid_file 0 "etc/a.cfg") (set_cells [false] s))
    = [false] ∧
  cells (exec (forEach_body plugin_root two_sources) s) = [true] ∧
  notifications (exec (close_listener first None)
                   (exec (forEach_body plugin_root two_sources) s))
  = ["notify:haproxyReloaded"].
Proof. vm_compute. repeat split; reflexivity. Qed.

(** * Further properties of the task *)

(** ** The value of the filter *)

(** X2: the array [src] that line 39 builds with [f.src.filter] is empty for
    every file group, since the callback returns nothing. *)
Theorem X2_filter_keeps_nothing root f s :
  fst (forEach_body root f s) = Ok [].
Proof.
  unfold forEach_body, bind, declare_restart.
  generalize (set_cells (cells s ++ [false]) s) as s0.
  generalize (length (cells s)) as cell.
  intros cell s0. revert s0.
  induction (src f) as [|x r IH]; intros s0; [reflexivity|].
  simpl. unfold bind.
  pose proof (filter_callback_result root (dest0 f) cell x s0) as H.
  destruct (filter_callback root (dest0 f) cell x s0) as [[b|e] s1]; simpl in H;
    [|discriminate].
  injection H as ->. specialize (IH s1).
  destruct (Array_filter _ r s1) as [[k|e] s2]; simpl in IH; [|discriminate].
  injection IH as ->. reflexivity.
Qed.

(** ** What a run leaves alone *)

Lemma filter_callback_files root dest cell fp s :
  let s' := exec (filter_callback root dest cell fp) s in
  files s' = files s ∨ files s' = delete dest (files s).
Proof.
  cbv zeta. rewrite filter_callback_split, launch_state. simpl.
  destruct (check_and_terminate_cases dest cell s); simpl; auto.
Qed.

Lemma Array_filter_files root dest cell l s :
  let s' := exec (Array_filter (filter_callback root dest cell) l) s in
  files s' = files s ∨ files s' = delete dest (files s).
Proof.
  revert s. induction l as [|fp r IH]; intros s; cbv zeta; [left; reflexivity|].
  rewrite Array_filter_step by apply filter_callback_result.
  destruct (IH (exec (filter_callback root dest cell fp) s)) as [E|E];
    destruct (filter_callback_files root dest cell fp s) as [E'|E'];
    rewrite E, E', ?delete_delete_eq; auto.
Qed.

Lemma forEach_body_files root f s :
  let s' := exec (forEach_body root f) s in
  files s' = files s ∨ files s' = delete (dest0 f) (files s).
Proof.
  cbv zeta. rewrite forEach_body_exec.
  apply (Array_filter_files root (dest0 f) (length (cells s)) (src f)
           (set_cells (cells s ++ [false]) s)).
Qed.

(** X3: a run of the task creates no file and changes none.  The file
    system afterwards is a part of the one before, and a path that differs
    is the [f.dest[0]] of one of the file groups. *)
Theorem X3_task_only_removes_pid_files root this_files s :
  let s' := exec (haproxy_task root this_files) s in
  files s' ⊆ files s ∧
  ∀ path, files s' !! path = files s !! path ∨ path ∈ map dest0 this_files.
Proof.
  unfold haproxy_task. revert s.
  induction this_files as [|f r IH]; intros s; cbv zeta.
  - split; [reflexivity|]. intros path. left. reflexivity.
  - rewrite Array_forEach_step.
    destruct (IH (exec (forEach_body root f) s)) as [IHsub IHp].
    destruct (forEach_body_files root f s) as [E|E]; rewrite E in IHsub, IHp.
    + split; [exact IHsub|]. intros path.
      destruct (IHp path) as [H|H]; [left; exact H|right; simpl; right; exact H].
    + split; [etrans; [exact IHsub|apply delete_subseteq]|].
      intros path. destruct (IHp path) as [H|H].
      * destruct (decide (dest0 f = path)) as [<-|Hne].
        -- right. simpl. left.
        -- left. rewrite H. apply lookup_delete_ne. exact Hne.
      * right. simpl. right. exact H.
Qed.

(** ** The [_restart] variables of different file groups *)

(** X5: every file group of a run gets a [_restart] of its own, and a run
    never writes a [_restart] that existed before it: the variables of
    earlier groups and earlier runs keep their values. *)
Theorem X5_restart_is_private_to_its_group root this_files s :
  let s' := exec (haproxy_task root this_files) s in
  take (length (cells s)) (cells s') = cells s ∧
  length (cells s') = (length (cells s) + length this_files)%nat.
Proof.
  unfold haproxy_task. revert s.
  induction this_files as [|f r IH]; intros s; cbv zeta.
  - change (exec (Array_forEach (forEach_body root) []) s) with s.
    rewrite firstn_all. split; [reflexivity|simpl; lia].
  - rewrite Array_forEach_step.
    destruct (forEach_body_cells root f s) as [Ht Hl].
    destruct (IH (exec (forEach_body root f) s)) as [IHt IHl].
    rewrite Hl in IHt, IHl. split; [|simpl; lia].
    transitivity (take (length (cells s))
                    (take (S (length (cells s)))
                       (cells (exec (Array_forEach (forEach_body root) r)
                                 (exec (forEach_body root f) s))))).
    + rewrite take_take. f_equal. lia.
    + rewrite IHt. exact Ht.
Qed.

(** ** The effects of the synchronous part *)

Lemma filter_callback_sync_trace root dest cell fp s :
  ∃ added, trace (exec (filter_callback root dest cell fp) s) = trace s ++ added ∧
           forallb is_sync_event added = true.
Proof.
  rewrite filter_callback_split, launch_state. simpl.
  destruct (check_and_terminate_trace dest cell s) as (pre & -> & _ & Hpre).
  exists (pre ++ [EvSpawn "haproxy" (haproxy_args root dest fp)
                    (next_pid (exec (check_and_terminate dest cell) s))]).
  rewrite <- app_assoc. split; [reflexivity|].
  rewrite forallb_app. simpl. rewrite andb_true_r.
  apply forallb_forall. intros e He.
  rewrite forallb_forall in Hpre. specialize (Hpre e He).
  destruct e; simpl in *; congruence.
Qed.

Lemma Array_filter_sync_trace root dest cell l s :
  ∃ added, trace (exec (Array_filter (filter_callback root dest cell) l) s) = trace s ++ added ∧
           forallb is_sync_event added = true.
Proof.
  revert s. induction l as [|fp r IH]; intros s.
  - exists []. rewrite app_nil_r. split; reflexivity.
  - rewrite Array_filter_step by apply filter_callback_result.
    destruct (filter_callback_sync_trace root dest cell fp s) as (a1 & E1 & H1).
    destruct (IH (exec (filter_callback root dest cell fp) s)) as (a2 & E2 & H2).
    exists (a1 ++ a2). rewrite E2, E1, <- app_assoc. split; [reflexivity|].
    rewrite forallb_app, H1, H2. reflexivity.
Qed.

Lemma haproxy_task_sync_trace root this_files s :
  ∃ added, trace (exec (haproxy_task root this_files) s) = trace s ++ added ∧
           forallb is_sync_event added = true.
Proof.
  unfold haproxy_task. revert s. induction this_files as [|f r IH]; intros s.
  - exists []. rewrite app_nil_r. split; reflexivity.
  - rewrite Array_forEach_step.
    destruct (IH (exec (forEach_body root f) s)) as (a2 & E2 & H2).
    rewrite forEach_body_exec in E2.
    destruct (Array_filter_sync_trace root (dest0 f) (length (cells s)) (src f)
                (set_cells (cells s ++ [false]) s)) as (a1 & E1 & H1).
    exists (a1 ++ a2). rewrite forEach_body_exec, E2, E1, <- app_assoc.
    split; [reflexivity|]. rewrite forallb_app, H1, H2. reflexivity.
Qed.

Lemma omap_sync_events {B} (f : Event -> option B) (l : list Event) :
  (∀ e, is_sync_event e = true -> f e = None) ->
  forallb is_sync_event l = true -> omap f l = [].
Proof.
  intros Hf. induction l as [|e l IH]; simpl; [reflexivity|].
  intros [He Hl]%andb_prop. rewrite (Hf e He). auto.
Qed.

Lemma haproxy_task_dones root this_files s :
  dones (exec (haproxy_task root this_files) s) = dones s.
Proof.
  destruct (haproxy_task_sync_trace root this_files s) as (added & E & H).
  unfold dones. rewrite E, omap_app, (omap_sync_events _ added), app_nil_r; auto.
  intros []; simpl; congruence.
Qed.

Lemma close_listener_dones i code s :
  dones (exec (close_listener i code) s) = S (dones s).
Proof.
  rewrite close_listener_state. unfold dones. simpl.
  rewrite omap_app, length_app. simpl.
  destruct (bool_decide (code = Some 0)); simpl; lia.
Qed.

Lemma close_all_counts events s :
  dones (close_all events s) = (dones s + length events)%nat ∧
  length (notifications (close_all events s))
  = (length (notifications s) + length events)%nat.
Proof.
  unfold close_all. revert s. induction events as [|[i code] r IH]; intros s; simpl.
  - split; lia.
  - destruct (IH (exec (close_listener i code) s)) as [Hd Hn].
    rewrite Hd, Hn, close_listener_dones, close_listener_notifications, length_app.
    simpl. split; lia.
Qed.

(** X6: [done()] is called by the ['close'] listener alone, once per event.
    After a run of the task and any number of ['close'] events, it has been
    called once for each event and one notification has been handed over for
    each: not at all while no child has closed, and more than once when a
    run spawned more than one child. *)
Theorem X6_done_once_per_close_event root this_files events s :
  let s' := close_all events (exec (haproxy_task root this_files) s) in
  dones s' = (dones s + length events)%nat ∧
  length (notifications s') = (length (notifications s) + length events)%nat.
Proof.
  cbv zeta. destruct (close_all_counts events (exec (haproxy_task root this_files) s))
    as [Hd Hn].
  rewrite Hd, Hn, haproxy_task_dones.
  destruct (haproxy_task_effect root this_files s) as (-> & _). split; reflexivity.
Qed.

Lemma haproxy_task_spawns root this_files s :
  ∃ new, spawns (exec (haproxy_task root this_files) s) = spawns s ++ new ∧
         map fst new = all_args root this_files.
Proof.
  unfold haproxy_task. revert s. induction this_files as [|f r IH]; intros s.
  - exists []. rewrite app_nil_r. split; reflexivity.
  - rewrite Array_forEach_step.
    destruct (forEach_body_effect root f s) as (_ & Hs & _).
    destruct (IH (exec (forEach_body root f) s)) as (new & E & Hnew).
    eexists. rewrite E, Hs, <- app_assoc. split; [reflexivity|].
    rewrite map_app, Hnew, map_map. unfold all_args. simpl. f_equal.
    apply (instances_from_args root (dest0 f) (length (cells s)) (next_pid s) (src f)).
Qed.

(** X7: a run of the task issues one spawn for every entry of every
    [f.src], in the order of the file groups and of their entries, each with
    the path of its entry and the [f.dest[0]] of its group; with no file
    group, or with empty [f.src] only, it spawns nothing. *)
Theorem X7_task_spawns_every_entry root this_files s :
  let s' := exec (haproxy_task root this_files) s in
  map fst (drop (length (spawns s)) (spawns s'))
  = flat_map (fun f => map (fun filepath =>
                ["-f "; path_resolve root filepath; "-p "; dest0 f; "-D"]) (src f))
      this_files.
Proof.
  cbv zeta. destruct (haproxy_task_spawns root this_files s) as (new & -> & Hnew).
  rewrite drop_app_length. exact Hnew.
Qed.

(** ** The notifications that can ever be run *)

Lemma notify_task_configured b :
  notify_task b ∈ notify_tasks ∧
  notify_task b ≠ "notify:haproxyFailed" ∧ notify_task b ≠ "notify:haproxyStopped".
Proof.
  destruct b; (split; [apply list_elem_of_In; simpl; auto|split; discriminate]).
Qed.

Lemma step_notifications root s s' :
  step root s s' ->
  ∃ added, notifications s' = notifications s ++ added ∧
    Forall (fun t => t ∈ notify_tasks ∧
                     t ≠ "notify:haproxyFailed" ∧ t ≠ "notify:haproxyStopped") added.
Proof.
  intros [fs s0|i code s0 Hi|s0 s1 Hc Hch Ht].
  - exists []. rewrite app_nil_r. split; [apply haproxy_task_effect|constructor].
  - eexists. rewrite close_listener_notifications. split; [reflexivity|].
    constructor; [apply notify_task_configured|constructor].
  - exists []. rewrite app_nil_r. unfold notifications. rewrite Ht.
    split; [reflexivity|constructor].
Qed.

(** X8: however the task runs and whichever children close, every
    notification handed to [grunt.task.run] is [notify:haproxyStarted] or
    [notify:haproxyReloaded], both of them targets that gruntfile.js
    configures; the configured targets [haproxyFailed] and [haproxyStopped]
    are never run. *)
Theorem X8_only_started_and_reloaded_are_run root s s' :
  rtc (step root) s s' ->
  ∃ added, notifications s' = notifications s ++ added ∧
    Forall (fun t => t ∈ notify_tasks ∧
                     t ≠ "notify:haproxyFailed" ∧ t ≠ "notify:haproxyStopped") added.
Proof.
  induction 1 as [x|x y z Hxy _ (a2 & E2 & H2)].
  - exists []. rewrite app_nil_r. split; [reflexivity|constructor].
  - destruct (step_notifications root x y Hxy) as (a1 & E1 & H1).
    exists (a1 ++ a2). rewrite E2, E1, <- app_assoc. split; [reflexivity|].
    apply Forall_app. split; assumption.
Qed.

Lemma X8_only_started_and_reloaded_are_run_witness :
  let s1 := exec (haproxy_task plugin_root [wamp]) boot in
  let i := new_instance plugin_root pid_file 0 "test/fixtures/haproxy-wamp.cfg" boot in
  ∃ added, notifications (exec (close_listener i (Some 1)) s1) = notifications boot ++ added ∧
    Forall (fun t => t ∈ notify_tasks ∧
                     t ≠ "notify:haproxyFailed" ∧ t ≠ "notify:haproxyStopped") added.
Proof.
  apply (X8_only_started_and_reloaded_are_run plugin_root boot).
  eapply rtc_l; [apply (step_task plugin_root [wamp] boot)|].
  eapply rtc_l; [|apply rtc_refl].
  apply step_close. vm_compute. left.
Defined.

(** ** The callback, when the PID file exists *)

Lemma kills_app s (l : list Event) :
  omap (fun e => match e with EvKill pid None => Some pid | _ => None end) (trace s ++ l)
  = kills s ++ omap (fun e => match e with EvKill pid None => Some pid | _ => None end) l.
Proof. apply omap_app. Qed.

(** X9: when the PID file holds the id of a process that may be signalled
    and the file can be removed, the callback delivers the signal, removes
    the file, sets [_restart] and spawns; the ['close'] event of the child
    then notifies a reload. *)
Theorem X9_reload_path root dest cell fp s content n :
  files s !! dest = Some (Readable content) ->
  Js.valid_pid content = Some n ->
  procs s !! n = Some true ->
  dest ∉ pinned s ->
  (cell < length (cells s))%nat ->
  let s' := exec (filter_callback root dest cell fp) s in
  files s' = delete dest (files s) ∧
  procs s' = <[Z.pos (next_pid s) := true]> (delete n (procs s)) ∧
  cells s' !! cell = Some true ∧
  kills s' = kills s ++ [content] ∧
  spawns s' = spawns s ++ [(haproxy_args root dest fp, next_pid s)] ∧
  ∀ code,
    notifications (exec (close_listener (new_instance root dest cell fp s) code) s')
    = notifications s ++ ["notify:haproxyReloaded"].
Proof.
  intros Hf Hv Hp Hpin Hcell. cbv zeta.
  rewrite (filter_callback_terminated root dest cell fp s content n) by assumption.
  simpl. repeat split.
  - apply list_lookup_insert_eq. exact Hcell.
  - unfold kills. simpl. rewrite kills_app. reflexivity.
  - unfold spawns. simpl. rewrite omap_app. reflexivity.
  - intros code. rewrite close_listener_notifications. simpl.
    rewrite list_lookup_insert_eq by exact Hcell.
    unfold notifications. simpl. rewrite omap_app. simpl.
    rewrite app_nil_r. reflexivity.
Qed.

Lemma X9_reload_path_witness :
  let s := set_cells [false] (with_pid_file (Js.pid_text 7) {[ 7 := true ]}) in
  let s' := exec (filter_callback plugin_root pid_file 0 "test/fixtures/haproxy-wamp.cfg") s in
  files s' = delete pid_file (files s) ∧
  procs s' = <[Z.pos (next_pid s) := true]> (delete 7 (procs s)) ∧
  cells s' !! 0%nat = Some true ∧
  kills s' = kills s ++ [Js.pid_text 7] ∧
  spawns s' = spawns s ++
    [(haproxy_args plugin_root pid_file "test/fixtures/haproxy-wamp.cfg", next_pid s)] ∧
  ∀ code,
    notifications (exec (close_listener (new_instance plugin_root pid_file 0
                     "test/fixtures/haproxy-wamp.cfg" s) code) s')
    = notifications s ++ ["notify:haproxyReloaded"].
Proof.
  apply (X9_reload_path plugin_root pid_file 0 "test/fixtures/haproxy-wamp.cfg"
           (set_cells [false] (with_pid_file (Js.pid_text 7) {[ 7 := true ]}))
           (Js.pid_text 7) 7).
  - vm_compute. reflexivity.
  - vm_compute. reflexivity.
  - vm_compute. reflexivity.
  - vm_compute. discriminate.
  - simpl. lia.
Defined.

(** X10: when the signal is delivered but the PID file cannot be removed,
    the exception of [unlinkSync] skips the assignment: the prior process is
    ended and the file stays, [_restart] keeps its value, the spawn follows,
    and the ['close'] event notifies what [_restart] said before, a start
    for a fresh variable. *)
Theorem X10_unlink_failure_hides_the_reload root dest cell fp s content n :
  files s !! dest = Some (Readable content) ->
  Js.valid_pid content = Some n ->
  procs s !! n = Some true ->
  dest ∈ pinned s ->
  let s' := exec (filter_callback root dest cell fp) s in
  files s' = files s ∧
  procs s' = <[Z.pos (next_pid s) := true]> (delete n (procs s)) ∧
  cells s' = cells s ∧
  kills s' = kills s ++ [content] ∧
  spawns s' = spawns s ++ [(haproxy_args root dest fp, next_pid s)] ∧
  ∀ code,
    notifications (exec (close_listener (new_instance root dest cell fp s) code) s')
    = notifications s ++ [notify_task (default false (cells s !! cell))].
Proof.
  intros Hf Hv Hp Hpin. cbv zeta.
  rewrite (filter_callback_unlink_failed root dest cell fp s content n) by assumption.
  simpl. repeat split.
  - unfold kills. simpl. rewrite kills_app. reflexivity.
  - unfold spawns. simpl. rewrite omap_app. reflexivity.
  - intros code. rewrite close_listener_notifications. simpl.
    unfold notifications. simpl. rewrite omap_app. simpl.
    rewrite app_nil_r. reflexivity.
Qed.

Lemma X10_unlink_failure_hides_the_reload_witness :
  let s := {| files := {[ pid_file := Readable (Js.pid_text 7) ]};
              pinned := {[ pid_file ]}; procs := {[ 7 := true ]};
              next_pid := 100%positive; cells := [false]; children := [];
              trace := [] |} in
  let s' := exec (filter_callback plugin_root pid_file 0 "test/fixtures/haproxy-wamp.cfg") s in
  files s' = files s ∧
  procs s' = <[Z.pos (next_pid s) := true]> (delete 7 (procs s)) ∧
  cells s' = cells s ∧
  kills s' = kills s ++ [Js.pid_text 7] ∧
  spawns s' = spawns s ++
    [(haproxy_args plugin_root pid_file "test/fixtures/haproxy-wamp.cfg", next_pid s)] ∧
  ∀ code,
    notifications (exec (close_listener (new_instance plugin_root pid_file 0
                     "test/fixtures/haproxy-wamp.cfg" s) code) s')
    = notifications s ++ [notify_task (default false (cells s !! 0%nat))].
Proof.
  apply (X10_unlink_failure_hides_the_reload plugin_root pid_file 0
           "test/fixtures/haproxy-wamp.cfg"
           {| files := {[ pid_file := Readable (Js.pid_text 7) ]};
              pinned := {[ pid_file ]}; procs := {[ 7 := true ]};
              next_pid := 100%positive; cells := [false]; children := [];
              trace := [] |}
           (Js.pid_text 7) 7).
  - vm_compute. reflexivity.
  - vm_compute. reflexivity.
  - vm_compute. reflexivity.
  - vm_compute. reflexivity.
Defined.

(** X11: a PID file that exists but cannot be read stops the termination
    at [readFileSync]: no signal is sent, no file is removed, [_restart]
    keeps its value, and the spawn follows the check at once. *)
Theorem X11_unreadable_pid_file root dest cell fp s :
  files s !! dest = Some Unreadable ->
  let s' := exec (filter_callback root dest cell fp) s in
  files s' = files s ∧
  procs s' = <[Z.pos (next_pid s) := true]> (procs s) ∧
  cells s' = cells s ∧
  trace s' = trace s ++
    [EvExists dest true; EvSpawn "haproxy" (haproxy_args root dest fp) (next_pid s)].
Proof.
  intros Hf. cbv zeta. rewrite filter_callback_split.
  assert (E : exec (check_and_terminate dest cell) s = emit (EvExists dest true) s).
  { unfold exec, check_and_terminate, bind, fs_existsSync.
    rewrite bool_decide_eq_true_2 by eauto.
    unfold try_catch_ignore, bind, fs_readFileSync. simpl. rewrite Hf. reflexivity. }
  rewrite E, launch_state. simpl. rewrite <- !app_assoc. auto.
Qed.

Lemma X11_unreadable_pid_file_witness :
  let s := set_files {[ pid_file := Unreadable ]} boot in
  let s' := exec (filter_callback plugin_root pid_file 0 "test/fixtures/haproxy-wamp.cfg") s in
  files s' = files s ∧
  procs s' = <[Z.pos (next_pid s) := true]> (procs s) ∧
  cells s' = cells s ∧
  trace s' = trace s ++
    [EvExists pid_file true;
     EvSpawn "haproxy" (haproxy_args plugin_root pid_file "test/fixtures/haproxy-wamp.cfg")
       (next_pid s)].
Proof.
  apply (X11_unreadable_pid_file plugin_root pid_file 0 "test/fixtures/haproxy-wamp.cfg"
           (set_files {[ pid_file := Unreadable ]} boot)).
  vm_compute. reflexivity.
Defined.

(** ** A whole file group *)

Lemma Array_filter_absent root dest cell l s :
  files s !! dest = None ->
  let s' := exec (Array_filter (filter_callback root dest cell) l) s in
  files s' = files s ∧ cells s' = cells s ∧
  trace s' = trace s ++
    flat_map (fun i => [EvExists dest false; EvSpawn "haproxy" (inst_args i) (inst_pid i)])
      (instances_from root dest cell (next_pid s) l).
Proof.
  revert s. induction l as [|fp r IH]; intros s Hf; cbv zeta.
  - simpl. rewrite app_nil_r. auto.
  - rewrite Array_filter_step by apply filter_callback_result.
    rewrite (filter_callback_absent root dest cell fp s Hf).
    match goal with |- context [exec _ ?st] => destruct (IH st Hf) as (E1 & E2 & E3) end.
    rewrite E1, E2, E3. simpl. rewrite <- !app_assoc. auto.
Qed.

Lemma kills_of_spawn_only dest (l : list Instance) :
  omap (fun e => match e with EvKill pid None => Some pid | _ => None end)
    (flat_map (fun i => [EvExists dest false; EvSpawn "haproxy" (inst_args i) (inst_pid i)]) l)
  = [].
Proof. induction l; simpl; auto. Qed.

Lemma closes_of_group root f s i code :
  i ∈ drop (length (children s)) (children (exec (forEach_body root f) s)) ->
  notifications (exec (close_listener i code) (exec (forEach_body root f) s))
  = notifications s ++
    [notify_task (default false (cells (exec (forEach_body root f) s) !! length (cells s)))].
Proof.
  intros Hi. destruct (forEach_body_effect root f s) as (Hc & _ & Hn & _).
  rewrite Hc, drop_app_length in Hi.
  pose proof (instances_from_dest root (dest0 f) (length (cells s)) (next_pid s) (src f)) as HF.
  rewrite Forall_forall in HF. destruct (HF i Hi) as [_ Hcell].
  rewrite close_listener_notifications, Hn, Hcell. reflexivity.
Qed.



(** X13: a file group whose PID file holds the id of a process that may be
    signalled, and can be removed: the first entry ends the process and
    removes the file, the later entries find no file, so the whole group
    sends that one signal; [_restart] is set, and the ['close'] event of
    every child of the group, of the later entries too, notifies a
    reload. *)
Theorem X13_group_reloads_once root dest fp rest s content n :
  files s !! dest = Some (Readable content) ->
  Js.valid_pid content = Some n ->
  procs s !! n = Some true ->
  dest ∉ pinned s ->
  let f := {| src := fp :: rest; dest0 := dest |} in
  let s' := exec (forEach_body root f) s in
  files s' = delete dest (files s) ∧
  kills s' = kills s ++ [content] ∧
  cells s' = cells s ++ [true] ∧
  length (drop (length (children s)) (children s')) = S (length rest) ∧
  ∀ i code, i ∈ drop (length (children s)) (children s') ->
    notifications (exec (close_listener i code) s')
    = notifications s ++ ["notify:haproxyReloaded"].
Proof.
  intros Hf Hv Hp Hpin. cbv zeta.
  set (f := {| src := fp :: rest; dest0 := dest |}).
  assert (E : exec (forEach_body root f) s
    = exec (Array_filter (filter_callback root dest (length (cells s))) rest)
        (exec (filter_callback root dest (length (cells s)) fp)
           (set_cells (cells s ++ [false]) s))).
  { rewrite forEach_body_exec. unfold f. cbn [src dest0].
    rewrite Array_filter_step by apply filter_callback_result. reflexivity. }
  rewrite (filter_callback_terminated root dest (length (cells s)) fp
             (set_cells (cells s ++ [false]) s) content n) in E by assumption.
  simpl in E.
  match type of E with _ = exec _ ?st =>
    destruct (Array_filter_absent root dest (length (cells s)) rest st
                (lookup_delete_eq (files s) dest)) as (E1 & E2 & E3) end.
  rewrite <- E in E1, E2, E3. simpl in E1, E2, E3.
  assert (Hcells : cells (exec (forEach_body root f) s) = cells s ++ [true]).
  { rewrite E2. rewrite <- (Nat.add_0_r (length (cells s))) at 1.
    rewrite insert_app_r. reflexivity. }
  repeat split.
  - exact E1.
  - unfold kills. rewrite E3, !omap_app, kills_of_spawn_only, app_nil_r. reflexivity.
  - exact Hcells.
  - destruct (forEach_body_effect root f s) as (-> & _).
    rewrite drop_app_length, instances_from_length. reflexivity.
  - intros i code Hi. rewrite (closes_of_group root f s i code Hi), Hcells.
    rewrite lookup_app_r by lia. rewrite Nat.sub_diag. reflexivity.
Qed.

Lemma X13_group_reloads_once_witness :
  let s := with_pid_file (Js.pid_text 7) {[ 7 := true ]} in
  let f := {| src := "etc/a.cfg" :: ["etc/b.cfg"]; dest0 := pid_file |} in
  let s' := exec (forEach_body plugin_root f) s in
  files s' = delete pid_file (files s) ∧
  kills s' = kills s ++ [Js.pid_text 7] ∧
  cells s' = cells s ++ [true] ∧
  length (drop (length (children s)) (children s')) = S (length ["etc/b.cfg"]) ∧
  ∀ i code, i ∈ drop (length (children s)) (children s') ->
    notifications (exec (close_listener i code) s')
    = notifications s ++ ["notify:haproxyReloaded"].
Proof.
  apply (X13_group_reloads_once plugin_root pid_file "etc/a.cfg" ["etc/b.cfg"]
           (with_pid_file (Js.pid_text 7) {[ 7 := true ]}) (Js.pid_text 7) 7).
  - vm_compute. reflexivity.
  - vm_compute. reflexivity.
  - vm_compute. reflexivity.
  - vm_compute. discriminate.
Defined.

(** ** Runs one after the other *)

Lemma cycle_reloaded_state root dest fp s content n :
  files s !! dest = Some (Readable content) ->
  Js.valid_pid content = Some n ->
  procs s !! n = Some true ->
  dest ∉ pinned s ->
  let s' := cycle root {| src := [fp]; dest0 := dest |} s in
  notifications s' = notifications s ++ ["notify:haproxyReloaded"] ∧
  files s' !! dest = Some (Readable (Js.pid_text (Pos.succ (next_pid s)))) ∧
  procs s' !! Z.pos (Pos.succ (next_pid s)) = Some true ∧
  pinned s' = pinned s ∧
  next_pid s' = Pos.succ (Pos.succ (next_pid s)).
Proof.
  intros Hf Hv Hp Hpin. cbv zeta.
  split; [apply (cycle_reloaded root dest fp s content n); assumption|].
  unfold cycle. rewrite haproxy_task_single, forEach_body_single.
  rewrite (filter_callback_terminated root dest (length (cells s)) fp
             (set_cells (cells s ++ [false]) s) content n) by assumption.
  unfold settle. simpl children. rewrite last_snoc.
  rewrite haproxy_daemonize_live by (simpl; rewrite lookup_insert_eq; eauto).
  rewrite close_listener_state. simpl.
  repeat split; apply lookup_insert_eq.
Qed.

(** The state between two cycles: the PID file holds the id of the running
    daemon, an id below the next one to be handed out. *)
Lemma cycles_state root dest fp s k :
  files s !! dest = None ->
  dest ∉ pinned s ->
  Z.pos (next_pid s) + 2 * Z.of_nat (S k) < 2 ^ 31 ->
  let sk := Nat.iter (S k) (cycle root {| src := [fp]; dest0 := dest |}) s in
  notifications sk
  = notifications s ++ "notify:haproxyStarted" :: replicate k "notify:haproxyReloaded" ∧
  (∃ d, files sk !! dest = Some (Readable (Js.pid_text d)) ∧
        procs sk !! Z.pos d = Some true ∧ Z.pos d < Z.pos (next_pid sk)) ∧
  pinned sk = pinned s ∧
  Z.pos (next_pid sk) = Z.pos (next_pid s) + 2 * Z.of_nat (S k).
Proof.
  intros Hf Hpin. induction k as [|k IH]; intros Hlt; cbv zeta.
  - simpl Nat.iter.
    destruct (cycle_started root dest fp s Hf) as (Hn & Hf' & Hp' & Hpin' & Hnext).
    rewrite Hn, Hpin', Hnext. repeat split; [|lia].
    exists (Pos.succ (next_pid s)). repeat split; [assumption..|lia].
  - change (Nat.iter (S (S k)) ?g s) with (g (Nat.iter (S k) g s)).
    destruct IH as (Hn & (d & Hfd & Hpd & Hd) & Hpin' & Hnext); [lia|].
    set (sk := Nat.iter (S k) (cycle root {| src := [fp]; dest0 := dest |}) s) in *.
    assert (Hv : Js.valid_pid (Js.pid_text d) = Some (Z.pos d))
      by (apply JsFacts.valid_pid_text; lia).
    assert (Hpin'' : dest ∉ pinned sk) by (rewrite Hpin'; exact Hpin).
    destruct (cycle_reloaded_state root dest fp sk _ _ Hfd Hv Hpd Hpin'')
      as (Hn2 & Hf2 & Hp2 & Hpin2 & Hnext2).
    rewrite Hn2, Hn, Hpin2, Hpin', Hnext2. repeat split.
    + rewrite replicate_S_end, <- app_assoc. reflexivity.
    + exists (Pos.succ (next_pid sk)). repeat split; [assumption..|lia].
    + lia.
Qed.

(** X15: cycle after cycle on one target, from a state with no PID file and
    with nothing else touching files or processes: the first cycle notifies
    a start and every later one a reload, for as long as process ids stay
    below 2^31. *)
Theorem X15_started_once_then_always_reloaded root dest fp s k :
  files s !! dest = None ->
  dest ∉ pinned s ->
  Z.pos (next_pid s) + 2 * Z.of_nat (S k) < 2 ^ 31 ->
  notifications (Nat.iter (S k) (cycle root {| src := [fp]; dest0 := dest |}) s)
  = notifications s ++ "notify:haproxyStarted" :: replicate k "notify:haproxyReloaded".
Proof. intros Hf Hpin Hlt. apply (cycles_state root dest fp s k Hf Hpin Hlt). Qed.

Lemma X15_started_once_then_always_reloaded_witness :
  notifications (Nat.iter 4 (cycle plugin_root
                   {| src := ["test/fixtures/haproxy-wamp.cfg"]; dest0 := pid_file |}) boot)
  = notifications boot ++ "notify:haproxyStarted" :: replicate 3 "notify:haproxyReloaded".
Proof.
  apply (X15_started_once_then_always_reloaded plugin_root pid_file
           "test/fixtures/haproxy-wamp.cfg" boot 3).
  - vm_compute. reflexivity.
  - vm_compute. discriminate.
  - vm_compute. reflexivity.
Defined.
